(** * survey_response_upload.py: loading survey rows and uploading them

    A shallow embedding of [src/survey_response_upload.py].  The program
    reads a CSV file of survey responses, asks the operator which column
    holds the eight-digit project member ID, builds a dictionary from
    member ID to row, and then uploads every row to the member's account
    through the Open Humans HTTP API.

    The program's own functions ([get_projmemid_fieldname],
    [load_survey_data], [surv_upload]) are translated line by line into a
    state-and-exception monad.  The state holds what the operator will type
    and the trace of everything the run did that is visible from outside:
    prompts, log lines and HTTP requests.  What the program borrows from
    libraries is either modelled after the library's documented behaviour
    ([csv.DictReader], [str.upper], [str.split], [re.match] on the one
    pattern the program uses) or taken as a parameter of the development
    (the CSV tokenizer, the header sniffer, [json.dumps], the remote
    service). *)

From Stdlib Require Import String Ascii List Arith Lia Bool DecimalString.
From stdpp Require Import base option list strings gmap.

(** ** Strings *)

(** Python strings are modelled as Rocq strings (sequences of 8-bit
    characters); case mapping is the ASCII one. *)

Definition newline : string := String (ascii_of_nat 10) EmptyString.

Definition is_digit (c : ascii) : bool :=
  (48 <=? nat_of_ascii c)%nat && (nat_of_ascii c <=? 57)%nat.

Definition is_lower (c : ascii) : bool :=
  (97 <=? nat_of_ascii c)%nat && (nat_of_ascii c <=? 122)%nat.

Definition upper_ascii (c : ascii) : ascii :=
  if is_lower c then ascii_of_nat (nat_of_ascii c - 32) else c.

(** [s.upper()] *)
Fixpoint upper (s : string) : string :=
  match s with
  | EmptyString => EmptyString
  | String c s' => String (upper_ascii c) (upper s')
  end.

(** [s.split(' ')]: cut at every single space; an empty string gives
    one empty piece, and adjacent spaces give empty pieces. *)
Fixpoint split_on (sep : ascii) (cur : string) (s : string) : list string :=
  match s with
  | EmptyString => [cur]
  | String c s' =>
      if decide (c = sep) then cur :: split_on sep "" s'
      else split_on sep (cur +:+ String c EmptyString) s'
  end.

Definition split_space (s : string) : list string :=
  split_on " "%char "" s.

(** [str(n)] for a non-negative integer. *)
Definition str_nat (n : nat) : string :=
  NilZero.string_of_uint (Nat.to_uint n).

(** [f.read(1024)] on a freshly opened text file. *)
Definition read_1024 (f : string) : string := substring 0 1024 f.

(** ** The member-ID pattern *)

(** [RE_ID = '^[0-9]{8}$'].  The constant is kept for reference; the
    matcher below is [re.match] specialised to it. *)
Definition RE_ID : string := "^[0-9]{8}$".

(** Consume exactly [n] characters of the class [[0-9]]. *)
Fixpoint eat_digits (n : nat) (s : string) : option string :=
  match n with
  | O => Some s
  | S n' =>
      match s with
      | EmptyString => None
      | String c s' => if is_digit c then eat_digits n' s' else None
      end
  end.

(** Python's [$] (without MULTILINE) holds at the end of the string and
    also just before a newline that is the string's last character. *)
Definition at_dollar (s : string) : bool :=
  bool_decide (s = "") || bool_decide (s = newline).

(** [bool(re.match(RE_ID, s))] for a string [s]. *)
Definition re_match_RE_ID (s : string) : bool :=
  match eat_digits 8 s with
  | Some rest => at_dollar rest
  | None => false
  end.

(** ** Insertion-ordered dictionaries *)

(** A Python [dict] (from version 3.7 on) keeps its keys in the order of
    their first insertion; assigning to an existing key replaces the value
    in place.  The order is what [for key in d] and [str(d)] see. *)
Section odict.
Context {K V : Type} `{EqDecision K}.

Fixpoint dict_set (k : K) (v : V) (d : list (K * V)) : list (K * V) :=
  match d with
  | [] => [(k, v)]
  | (k', v') :: d' =>
      if decide (k = k') then (k, v) :: d'
      else (k', v') :: dict_set k v d'
  end.

Fixpoint dict_get (k : K) (d : list (K * V)) : option V :=
  match d with
  | [] => None
  | (k', v') :: d' => if decide (k = k') then Some v' else dict_get k d'
  end.

Definition dict_keys (d : list (K * V)) : list K := d.*1.

(** [dict(pairs)] *)
Definition dict_of (pairs : list (K * V)) : list (K * V) :=
  foldl (fun d kv => dict_set kv.1 kv.2 d) [] pairs.
End odict.

(** ** Rows as [csv.DictReader] yields them *)

(** A value stored in a dictionary of the program: a string, [None], or a
    list of strings.  In a row these are a field read from the file, the
    filler of a column the line was too short to reach ([restval]), and the
    surplus fields of a line that was too long. *)
Inductive cell :=
| Str (s : string)
| PyNone
| StrList (l : list string).

(** A dictionary whose keys are strings or [None]. *)
Definition pydict : Type := list (option string * cell).

(** A row: keys are column names, or [None] for the surplus fields
    ([restkey]). *)
Definition row : Type := pydict.

(** The dictionary [DictReader.__next__] builds from one record:
    [dict(zip(fieldnames, record))], then either the surplus under
    [restkey = None] or [restval = None] for each missing column. *)
Definition make_row (fieldnames record : list string) : row :=
  let d := dict_of (zip (Some <$> fieldnames) (Str <$> record)) in
  let lf := length fieldnames in
  let lr := length record in
  if decide (lf < lr) then dict_set None (StrList (drop lf record)) d
  else if decide (lr < lf) then
    foldl (fun d key => dict_set (Some key) PyNone d) d (drop lr fieldnames)
  else d.

Definition nonempty_record (record : list string) : bool :=
  match record with
  | [] => false
  | _ => true
  end.

(** A [DictReader] over the records of a file: the first record gives
    [fieldnames] (absent when the file has no record at all); the
    remaining records, blank ones skipped, give the rows. *)
Definition reader_fieldnames (records : list (list string)) : option (list string) :=
  head records.

Definition reader_rows (records : list (list string)) : list row :=
  match records with
  | [] => []
  | fieldnames :: rest => make_row fieldnames <$> filter (fun r => nonempty_record r = true) rest
  end.

(** [l.index(x)] *)
Fixpoint list_index (x : string) (l : list string) : option nat :=
  match l with
  | [] => None
  | y :: l' => if decide (x = y) then Some 0 else S <$> list_index x l'
  end.

(** ** Exceptions, events and the monad of runs *)

Inductive exn :=
| FileNotFoundError (path : string)  (* [open] on a path that has no file *)
| StopIteration                      (* [next] on an exhausted reader *)
| TypeError                          (* [re.match] on a cell that is not a string *)
| KeyError                           (* [d[k]] on an absent key *)
| ValueError                         (* [l.index(x)] on an absent element *)
| EOFError                           (* [input] when standard input has ended *)
| Exception (msg : string)           (* [raise Exception(msg)] in the program *)
| LibraryError (msg : string).       (* raised inside csv, ohapi or requests *)

Inductive result (A : Type) :=
| Ok (a : A)
| Raise (e : exn).
Arguments Ok {A} a.
Arguments Raise {A} e.

Inductive level := INFO | WARNING.

(** A [requests.post(url, files=..., data=...)] call.  [req_files] is the
    single entry [{name: (filename, body)}] of the [files] dictionary when
    there is one; [req_data] is the [data] dictionary in source order. *)
Record request := {
  req_url : string;
  req_files : option (string * (string * string));
  req_data : list (string * string)
}.

(** What a run does that can be observed, in the order it happens. *)
Inductive event :=
| EvInput (prompt : string) (response : option string)
    (* [input(prompt)]: the prompt shown and the line typed, if any *)
| EvLog (l : level) (msg : string)
    (* [logging.info(msg)] or [logging.warning(msg)] *)
| EvProject (token : string)
    (* [ohapi.OHProject(master_access_token=token)]: the listing fetch *)
| EvPost (r : request) (reply : result Z).
    (* [requests.post]: the request and the status code answered,
       or the exception the call raised *)

(** The state threaded through a run: the lines the operator has yet to
    type, and the trace so far. *)
Record world := {
  stdin : list string;
  trace : list event
}.

Definition M (A : Type) : Type := world -> result A * world.

Definition ret {A} (a : A) : M A := fun w => (Ok a, w).

Definition bind {A B} (m : M A) (k : A -> M B) : M B :=
  fun w =>
    match m w with
    | (Ok a, w') => k a w'
    | (Raise e, w') => (Raise e, w')
    end.

Definition raise {A} (e : exn) : M A := fun w => (Raise e, w).

Definition lift {A} (r : result A) : M A := fun w => (r, w).

Notation "x <- m ;; k" := (bind m (fun x => k))
  (at level 100, m at next level, k at level 200, right associativity).
Notation "m ;; k" := (bind m (fun _ => k))
  (at level 100, k at level 200, right associativity).

Definition emit (ev : event) : M unit :=
  fun w => (Ok tt, {| stdin := stdin w; trace := trace w ++ [ev] |}).

(** [input(prompt)] *)
Definition input (prompt : string) : M string :=
  fun w =>
    match stdin w with
    | [] => (Raise EOFError,
             {| stdin := []; trace := trace w ++ [EvInput prompt None] |})
    | line :: rest => (Ok line,
             {| stdin := rest; trace := trace w ++ [EvInput prompt (Some line)] |})
    end.

Definition logging_info (msg : string) : M unit := emit (EvLog INFO msg).
Definition logging_warning (msg : string) : M unit := emit (EvLog WARNING msg).

(** [d[k]] *)
Definition getitem {K V} `{EqDecision K} (d : list (K * V)) (k : K) : M V :=
  match dict_get k d with
  | Some v => ret v
  | None => raise KeyError
  end.

(** [for x in xs: body(x)] *)
Fixpoint for_each {A} (body : A -> M unit) (xs : list A) : M unit :=
  match xs with
  | [] => ret tt
  | x :: xs' => body x ;; for_each body xs'
  end.

(** ** Defaults for uploaded data files *)

Definition UPLOAD_FILENAME : string := "survey-data.json".
Definition DEFAULT_DESCRIPTION : string := "Project survey data.".
Definition DEFAULT_TAGS : string := "json survey".

(** ** The remote listing *)

(** One file of a member's listing, with the two fields the program reads. *)
Record file_entry := {
  basename : string;
  source : string
}.

(** [proj.project_data[projmemid]]: the member's files and the sources the
    member shares with the project. *)
Record member_data := {
  data : list file_entry;
  sources_shared : list string
}.

#[global] Instance file_entry_eq_dec : EqDecision file_entry.
Proof. solve_decision. Defined.
#[global] Instance exn_eq_dec : EqDecision exn.
Proof. solve_decision. Defined.
#[global] Instance result_eq_dec {A} `{EqDecision A} : EqDecision (result A).
Proof. solve_decision. Defined.
#[global] Instance level_eq_dec : EqDecision level.
Proof. solve_decision. Defined.
#[global] Instance request_eq_dec : EqDecision request.
Proof. solve_decision. Defined.
#[global] Instance event_eq_dec : EqDecision event.
Proof. solve_decision. Defined.
#[global] Instance cell_eq_dec : EqDecision cell.
Proof. solve_decision. Defined.

(** ** Sample inputs *)

(** A tokenizer for CSV text that has no quoting: records end at a
    newline, fields at a comma.  On such text it gives the records of
    [csv.reader]; the examples run the program with it. *)
Definition plain_lines (text : string) : list string :=
  match reverse (split_on (ascii_of_nat 10) "" text) with
  | "" :: pieces => reverse pieces
  | pieces => reverse pieces
  end.

Definition plain_csv_reader (text : string) : list (list string) :=
  (fun line => if decide (line = "") then [] else split_on ","%char "" line)
    <$> plain_lines text.

(** A printer of dictionaries that stands for [str] and [json.dumps] in the
    examples. *)
Definition show_cell (c : cell) : string :=
  match c with
  | Str s => "'" +:+ s +:+ "'"
  | PyNone => "None"
  | StrList l => "[" +:+ String.concat ", " l +:+ "]"
  end.

Definition show_dict (d : pydict) : string :=
  "{" +:+ String.concat ", "
            ((fun kv => default "None" kv.1 +:+ ": " +:+ show_cell kv.2) <$> d)
      +:+ "}".

Definition unlines (lines : list string) : string :=
  String.concat "" ((fun l => l +:+ newline) <$> lines).

(** A file system with one file, [survey.csv]. *)
Definition one_file (text : string) (path : string) : option string :=
  if decide (path = "survey.csv") then Some text else None.

(** A sniffer that finds a header in every sample, as [csv.Sniffer] does
    in the sample files below, and one that finds none. *)
Definition sniff_header (sample : string) : result bool := Ok true.
Definition sniff_no_header (sample : string) : result bool := Ok false.

(** The file of the specification's first scenario, and variations. *)
Definition survey_two_rows : string :=
  unlines ["id,response"; "12345678,yes"; "87654321,no"].

Definition survey_duplicate : string :=
  unlines ["id,response"; "12345678,yes"; "87654321,no"; "12345678,maybe"].

Definition survey_seven_digits : string :=
  unlines ["id,response"; "12345678,yes"; "1234567,no"].

Definition survey_header_only : string :=
  unlines ["id,response"].

Definition survey_two_candidates : string :=
  unlines ["id,age,member"; "12345678,42,87654321"].



(** An unnamed second column, and a first data line that stops after it. *)
Definition survey_unnamed_then_short : string :=
  unlines ["id,,x"; "12345678,87654321"].

(** Ten good rows, then a line too short to reach the [id] column. *)
Definition survey_short_row : string :=
  unlines ("response,id" :: replicate 10 "yes,12345678" ++ ["no"]).


(** A listing with one member, who has a file of the project named
    [survey-data.json] and a file from a shared source. *)
Definition sample_listing : gmap string member_data :=
  {[ "12345678" :=
       {| data := [ {| basename := "survey-data.json"; source := "direct-sharing-1" |};
                    {| basename := "genome.txt"; source := "twenty_three_and_me" |} ];
          sources_shared := ["twenty_three_and_me"] |} ]}.

Definition fetch_sample_listing (token : string)
    : result (gmap string member_data) :=
  Ok sample_listing.

(** A remote service that answers 200 to a delete and 500 to anything else. *)
Definition remote_failing (t : list event) (r : request) : result Z :=
  match req_files r with
  | None => Ok 200%Z
  | Some _ => Ok 500%Z
  end.

(** A remote service that cannot be reached. *)
Definition remote_down (t : list event) (r : request) : result Z :=
  Raise (LibraryError "ConnectionError").

(** The operator's world at the start of a run, and after one prompt for
    the first column was answered [y]. *)
Definition operator_types (answers : list string) : world :=
  {| stdin := answers; trace := [] |}.

Definition confirmed_column (idx fieldname : string) : world :=
  {| stdin := [];
     trace := [EvInput ("Is project member ID column " +:+ idx +:+ "? ("
                          +:+ fieldname +:+ ") (Y/N): ") (Some "y")] |}.

Definition row_of (id response : string) : row :=
  [(Some "id", Str id); (Some "response", Str response)].

(** The requests and the trace of the run on [survey_two_rows] against
    [sample_listing] and [remote_failing], with the token [TOKEN]. *)
Definition sample_delete : request :=
  {| req_url := "https://www.openhumans.org/api/direct-sharing/project/files/delete/?access_token=TOKEN";
     req_files := None;
     req_data := [("project_member_id", "12345678");
                  ("file_basename", "survey-data.json")] |}.

Definition sample_upload : request :=
  {| req_url := "https://www.openhumans.org/api/direct-sharing/project/files/upload/?access_token=TOKEN";
     req_files := Some ("data_file",
                        ("survey-data.json", "{id: '12345678', response: 'yes'}"));
     req_data := [("project_member_id", "12345678");
                  ("metadata",
                   "{tags: [json, survey], description: 'Project survey data.'}")] |}.

Definition sample_loop_events : list event :=
  [EvLog INFO "Deleting current survey-data.json for 12345678";
   EvPost sample_delete (Ok 200%Z);
   EvLog INFO "Uploading survey-data.json for 12345678";
   EvPost sample_upload (Ok 500%Z);
   EvLog WARNING "Upload error of survey-data.json for 12345678!";
   EvLog INFO "Skipping '87654321', invalid member ID."].

Definition sample_run_end : world :=
  {| stdin := [];
     trace := trace (confirmed_column "1" "id")
                ++ EvProject "TOKEN" :: sample_loop_events |}.

(** ** The program *)

Section Program.

(** The file system during the run: the text at each path. *)
Variable fs : string -> option string.

(** [csv.reader] with the default dialect: the records of a text, each a
    list of fields (a blank line is the empty record).  Texts on which the
    reader itself raises [csv.Error] are outside the model. *)
Variable csv_reader : string -> list (list string).

(** [csv.Sniffer().has_header(sample)]; it can raise [csv.Error]. *)
Variable has_header : string -> result bool.

(** ['{}'.format(row)], that is [str(row)]. *)
Variable str_row : row -> string.

(** [json.dumps] on the dictionaries the program serialises. *)
Variable json_dumps : pydict -> string.

(** What [ohapi.OHProject(master_access_token=token)] retrieves as
    [project_data], or the exception the retrieval raises. *)
Variable fetch_project_data : string -> result (gmap string member_data).

(** The remote service: the status code it answers to a request, given
    everything that happened before, or the exception [requests.post]
    raises. *)
Variable remote : list event -> request -> result Z.

(** [open(path)] followed by reading the text. *)
Definition open (path : string) : M string :=
  match fs path with
  | Some text => ret text
  | None => raise (FileNotFoundError path)
  end.

(** [next(reader)] on a fresh [DictReader]. *)
Definition next_row (records : list (list string)) : M row :=
  match reader_rows records with
  | [] => raise StopIteration
  | r :: _ => ret r
  end.

(** [re.match(RE_ID, v)] as a truth value; a cell that is not a string
    raises [TypeError]. *)
Definition re_match (v : cell) : M bool :=
  match v with
  | Str s => ret (re_match_RE_ID s)
  | _ => raise TypeError
  end.

Definition prompt_for (idx : nat) (fieldname : string) : string :=
  "Is project member ID column " +:+ str_nat idx +:+ "? (" +:+ fieldname
    +:+ ") (Y/N): ".

(** [response.upper() in ['Y', 'YES']] *)
Definition affirmative (response : string) : bool :=
  bool_decide (upper response ∈ ["Y"; "YES"]).

(** The loop of [get_projmemid_fieldname] over [reader.fieldnames]; the
    value is [id_fieldname] when the loop ends, [None] unless a [break]
    was taken. *)
Fixpoint scan_fieldnames (fieldnames : list string) (firstrow : row)
    (todo : list string) : M (option string) :=
  match todo with
  | [] => ret None
  | fieldname :: todo' =>
      v <- getitem firstrow (Some fieldname) ;;
      m <- re_match v ;;
      if m then
        i <- lift (match list_index fieldname fieldnames with
                   | Some i => Ok i
                   | None => Raise ValueError
                   end) ;;
        let idx := i + 1 in
        response <- input (prompt_for idx fieldname) ;;
        if affirmative response then ret (Some fieldname)
        else scan_fieldnames fieldnames firstrow todo'
      else scan_fieldnames fieldnames firstrow todo'
  end.

(** [if id_fieldname:] on a value that is [None] or a string. *)
Definition truthy (o : option string) : bool :=
  match o with
  | Some s => negb (bool_decide (s = ""))
  | None => false
  end.

(** Determine which CSV column has project member IDs. *)
Definition get_projmemid_fieldname (surveydata : string) : M string :=
  f <- open surveydata ;;
  let records := csv_reader f in
  firstrow <- next_row records ;;
  id_fieldname <- scan_fieldnames (default [] (reader_fieldnames records))
                    firstrow (default [] (reader_fieldnames records)) ;;
  match id_fieldname with
  | Some name =>
      if truthy id_fieldname then ret name
      else raise (Exception "Unable to determine column with project member ID.")
  | None => raise (Exception "Unable to determine column with project member ID.")
  end.

Definition malformed_message (r : row) : string :=
  "Row " +:+ str_row r +:+ " appears to have malformed project member ID!".

(** The loop of [load_survey_data] over the rows.  ([row_count] is
    incremented in the source and never read; it is left out.) *)
Fixpoint load_rows (id_fieldname : string) (rows : list row)
    (loaded_data : list (string * row)) : M (list (string * row)) :=
  match rows with
  | [] => ret loaded_data
  | r :: rows' =>
      v <- getitem r (Some id_fieldname) ;;
      m <- re_match v ;;
      if m then
        match v with
        | Str key => load_rows id_fieldname rows' (dict_set key r loaded_data)
        | _ => raise TypeError
        end
      else raise (Exception (malformed_message r))
  end.

(** Load survey data into a dict from the CSV file. *)
Definition load_survey_data (surveydata : string) : M (list (string * row)) :=
  f <- open surveydata ;;
  h <- lift (has_header (read_1024 f)) ;;
  if negb h then raise (Exception "CSV data doesn't appear to have a header!")
  else
    id_fieldname <- get_projmemid_fieldname surveydata ;;
    f <- open surveydata ;;
    load_rows id_fieldname (reader_rows (csv_reader f)) [].

(** [ohapi.OHProject(master_access_token=mastertoken)]: one call to the
    remote service, which gives [project_data]. *)
Definition OHProject (mastertoken : string) : M (gmap string member_data) :=
  emit (EvProject mastertoken) ;;
  lift (fetch_project_data mastertoken).

(** [requests.post(url, files=files, data=data)]; the value is
    [r.status_code]. *)
Definition requests_post (r : request) : M Z :=
  fun w =>
    let reply := remote (trace w) r in
    (reply, {| stdin := stdin w; trace := trace w ++ [EvPost r reply] |}).

(** The project's own files of a member, by basename: the listing without
    the files that come from shared data sources. *)
Definition curr_project_data (md : member_data) : list (string * file_entry) :=
  dict_of ((fun f => (basename f, f)) <$>
           filter (fun f => source f ∉ sources_shared md) (data md)).

Definition del_url (token : string) : string :=
  "https://www.openhumans.org/api/direct-sharing/project/files"
    +:+ "/delete/?access_token=" +:+ token.

Definition up_url (token : string) : string :=
  "https://www.openhumans.org/api/direct-sharing/project/files/"
    +:+ "upload/?access_token=" +:+ token.

Definition delete_request (token projmemid filename : string) : request :=
  {| req_url := del_url token;
     req_files := None;
     req_data := [("project_member_id", projmemid);
                  ("file_basename", filename)] |}.

Definition metadata (tags description : string) : pydict :=
  [(Some "tags", StrList (split_space tags));
   (Some "description", Str description)].

Definition upload_request (token projmemid filename body meta : string) : request :=
  {| req_url := up_url token;
     req_files := Some ("data_file", (filename, body));
     req_data := [("project_member_id", projmemid);
                  ("metadata", meta)] |}.

(** The body of the loop of [surv_upload] for one member ID. *)
Definition upload_member (mastertoken filename description tags : string)
    (loaded_data : list (string * row))
    (project_data : gmap string member_data) (projmemid : string) : M unit :=
  match project_data !! projmemid with
  | None =>
      logging_info ("Skipping '" +:+ projmemid +:+ "', invalid member ID.")
  | Some member_data =>
      (if bool_decide (filename ∈ dict_keys (curr_project_data member_data))
       then
         logging_info ("Deleting current " +:+ filename +:+ " for " +:+ projmemid) ;;
         _ <- requests_post (delete_request mastertoken projmemid filename) ;;
         ret tt
       else ret tt) ;;
      logging_info ("Uploading " +:+ filename +:+ " for " +:+ projmemid) ;;
      r <- getitem loaded_data projmemid ;;
      status_code <- requests_post
        (upload_request mastertoken projmemid filename (json_dumps r)
           (json_dumps (metadata tags description))) ;;
      if bool_decide (status_code = 201%Z) then
        logging_info ("Upload of " +:+ filename +:+ " for " +:+ projmemid
                        +:+ " complete.")
      else
        logging_warning ("Upload error of " +:+ filename +:+ " for "
                           +:+ projmemid +:+ "!")
  end.

(** Upload survey data from CSV file to project member accounts. *)
Definition surv_upload (mastertoken surveydata filename description tags : string)
    : M unit :=
  loaded_data <- load_survey_data surveydata ;;
  project_data <- OHProject mastertoken ;;
  for_each (upload_member mastertoken filename description tags
              loaded_data project_data)
           (dict_keys loaded_data).


(** ** Vocabulary of the statements *)

(** The row has a string in column [fieldname] and [RE_ID] matches it. *)
Definition cell_matches (fieldname : string) (r : row) : bool :=
  match dict_get (Some fieldname) r with
  | Some (Str s) => re_match_RE_ID s
  | _ => false
  end.

(** The row has the string [k] in column [fieldname]. *)
Definition has_id (fieldname k : string) (r : row) : Prop :=
  dict_get (Some fieldname) r = Some (Str k).

#[global] Instance has_id_dec fieldname k r : Decision (has_id fieldname k r).
Proof. unfold has_id. apply _. Defined.

(** What [load_rows] raises at a row that [cell_matches] rejects. *)
Definition row_error (fieldname : string) (r : row) : exn :=
  match dict_get (Some fieldname) r with
  | Some (Str _) => Exception (malformed_message r)
  | Some _ => TypeError
  | None => KeyError
  end.

(** The one-based position [reader.fieldnames.index(fieldname) + 1] of a
    column that is in the header. *)
Definition column_number (fieldnames : list string) (fieldname : string) : nat :=
  default 0 (list_index fieldname fieldnames) + 1.

(** How the questioning of the operator ends. *)
Inductive inference :=
| Confirmed (fieldname : string)
| Unconfirmed
| InputEnded.

(** Column inference in the specification's words: the candidate columns
    are put to the operator one by one, in order; the first affirmative
    answer ends the questioning.  The value lists the columns asked about,
    each with the answer given ([None] when standard input had ended), and
    tells how the questioning ended. *)
Fixpoint ask_candidates (cands answers : list string)
    : list (string * option string) * inference :=
  match cands with
  | [] => ([], Unconfirmed)
  | f :: cands' =>
      match answers with
      | [] => ([(f, None)], InputEnded)
      | a :: answers' =>
          if affirmative a then ([(f, Some a)], Confirmed f)
          else
            let '(asked, o) := ask_candidates cands' answers' in
            ((f, Some a) :: asked, o)
      end
  end.

Definition unable : exn :=
  Exception "Unable to determine column with project member ID.".


(** The prompt events of a questioning. *)
Definition asked_events (fieldnames : list string)
    (asked : list (string * option string)) : list event :=
  (fun fa => EvInput (prompt_for (column_number fieldnames fa.1) fa.1) fa.2) <$> asked.

(** The events that reach the remote service. *)
Definition is_network (e : event) : bool :=
  match e with
  | EvProject _ | EvPost _ _ => true
  | EvInput _ _ | EvLog _ _ => false
  end.


(** *** Uploading *)

Definition msg_skipping (projmemid : string) : string :=
  "Skipping '" +:+ projmemid +:+ "', invalid member ID.".

Definition msg_deleting (filename projmemid : string) : string :=
  "Deleting current " +:+ filename +:+ " for " +:+ projmemid.

Definition msg_uploading (filename projmemid : string) : string :=
  "Uploading " +:+ filename +:+ " for " +:+ projmemid.

Definition msg_complete (filename projmemid : string) : string :=
  "Upload of " +:+ filename +:+ " for " +:+ projmemid +:+ " complete.".

Definition msg_error (filename projmemid : string) : string :=
  "Upload error of " +:+ filename +:+ " for " +:+ projmemid +:+ "!".

(** The log line that reports the status code of an upload. *)
Definition report (filename projmemid : string) (status_code : Z) : event :=
  if bool_decide (status_code = 201%Z)
  then EvLog INFO (msg_complete filename projmemid)
  else EvLog WARNING (msg_error filename projmemid).

(** The member's listing has a file named [filename] whose source is not
    one of the member's shared sources. *)
Definition owns (md : member_data) (filename : string) : Prop :=
  ∃ f, f ∈ data md ∧ (source f ∉ sources_shared md) ∧ basename f = filename.

(** A request made on behalf of the member [projmemid]. *)
Definition request_for (projmemid : string) (r : request) : Prop :=
  ("project_member_id", projmemid) ∈ req_data r.

Section Chunks.

Variables (mastertoken filename description tags : string).
Variable loaded_data : list (string * row).
Variable project_data : gmap string member_data.

(** The upload request the loop makes for [projmemid] when the loaded
    dataset has the row [r] for it. *)
Definition upload_of (projmemid : string) (r : row) : request :=
  upload_request mastertoken projmemid filename (json_dumps r)
    (json_dumps (metadata tags description)).

(** The events of the delete step for a member whose listing is [md],
    starting from the trace [t], and the exception that ends the step if
    there is one. *)
Inductive delete_step (md : member_data) (projmemid : string) (t : list event)
    : list event → option exn → Prop :=
| delete_not_needed :
    ¬ owns md filename →
    delete_step md projmemid t [] None
| delete_answered status_code :
    owns md filename →
    remote (t ++ [EvLog INFO (msg_deleting filename projmemid)])
      (delete_request mastertoken projmemid filename) = Ok status_code →
    delete_step md projmemid t
      [EvLog INFO (msg_deleting filename projmemid);
       EvPost (delete_request mastertoken projmemid filename) (Ok status_code)] None
| delete_raised e :
    owns md filename →
    remote (t ++ [EvLog INFO (msg_deleting filename projmemid)])
      (delete_request mastertoken projmemid filename) = Raise e →
    delete_step md projmemid t
      [EvLog INFO (msg_deleting filename projmemid);
       EvPost (delete_request mastertoken projmemid filename) (Raise e)] (Some e).

(** The events of the upload step, and how it ends. *)
Inductive upload_step (projmemid : string) (t : list event)
    : list event → result unit → Prop :=
| upload_no_row :
    dict_get projmemid loaded_data = None →
    upload_step projmemid t
      [EvLog INFO (msg_uploading filename projmemid)] (Raise KeyError)
| upload_raised r e :
    dict_get projmemid loaded_data = Some r →
    remote (t ++ [EvLog INFO (msg_uploading filename projmemid)])
      (upload_of projmemid r) = Raise e →
    upload_step projmemid t
      [EvLog INFO (msg_uploading filename projmemid);
       EvPost (upload_of projmemid r) (Raise e)] (Raise e)
| upload_answered r status_code :
    dict_get projmemid loaded_data = Some r →
    remote (t ++ [EvLog INFO (msg_uploading filename projmemid)])
      (upload_of projmemid r) = Ok status_code →
    upload_step projmemid t
      [EvLog INFO (msg_uploading filename projmemid);
       EvPost (upload_of projmemid r) (Ok status_code);
       report filename projmemid status_code] (Ok tt).

(** The events of one turn of the loop, for [projmemid], from trace [t]. *)
Inductive member_turn (projmemid : string) (t : list event)
    : list event → result unit → Prop :=
| turn_skipped :
    project_data !! projmemid = None →
    member_turn projmemid t [EvLog INFO (msg_skipping projmemid)] (Ok tt)
| turn_delete_failed md dels e :
    project_data !! projmemid = Some md →
    delete_step md projmemid t dels (Some e) →
    member_turn projmemid t dels (Raise e)
| turn_uploaded md dels ups r :
    project_data !! projmemid = Some md →
    delete_step md projmemid t dels None →
    upload_step projmemid (t ++ dels) ups r →
    member_turn projmemid t (dels ++ ups) r.

(** The events of the whole loop over [keys], from trace [t]. *)
Inductive loop_run : list string → list event → list event → result unit → Prop :=
| loop_done t :
    loop_run [] t [] (Ok tt)
| loop_stopped projmemid keys t evs e :
    member_turn projmemid t evs (Raise e) →
    loop_run (projmemid :: keys) t evs (Raise e)
| loop_next projmemid keys t evs evs' r :
    member_turn projmemid t evs (Ok tt) →
    loop_run keys (t ++ evs) evs' r →
    loop_run (projmemid :: keys) t (evs ++ evs') r.

End Chunks.


(** *** Further vocabulary *)

(** The identifier a row carries in column [fieldname], if it has a string
    there. *)
Definition row_id (fieldname : string) (r : row) : option string :=
  match dict_get (Some fieldname) r with
  | Some (Str s) => Some s
  | _ => None
  end.

(** The elements of [l] that are not in [seen], each kept at its first
    occurrence only. *)
Fixpoint first_occurrences (seen l : list string) : list string :=
  match l with
  | [] => []
  | x :: l' =>
      if decide (x ∈ seen) then first_occurrences seen l'
      else x :: first_occurrences (seen ++ [x]) l'
  end.

Definition is_prompt (e : event) : bool :=
  match e with
  | EvInput _ _ => true
  | _ => false
  end.

Definition is_log_or_post (e : event) : bool :=
  match e with
  | EvLog _ _ | EvPost _ _ => true
  | _ => false
  end.

(** The member identifiers of the requests made to [url], in the order of
    the trace. *)
Definition posted_ids (url : string) (evs : list event) : list string :=
  omap (fun e =>
          match e with
          | EvPost req _ =>
              if decide (req_url req = url)
              then dict_get "project_member_id" (req_data req)
              else None
          | _ => None
          end) evs.

(** The identifier is in the listing. *)
Definition listed (project_data : gmap string member_data) (projmemid : string)
    : bool :=
  bool_decide (is_Some (project_data !! projmemid)).

(** The identifier is in the listing with a file of the project named
    [filename]. *)
Definition has_current (project_data : gmap string member_data)
    (filename projmemid : string) : bool :=
  match project_data !! projmemid with
  | Some md => bool_decide (filename ∈ dict_keys (curr_project_data md))
  | None => false
  end.

(** The log line that announces a request. *)
Definition announcement (mastertoken filename : string) (req : request)
    (projmemid : string) : event :=
  if decide (req_url req = del_url mastertoken)
  then EvLog INFO ("Deleting current " +:+ filename +:+ " for " +:+ projmemid)
  else EvLog INFO ("Uploading " +:+ filename +:+ " for " +:+ projmemid).

(** * Properties *)

(** ** Strings *)

Lemma string_app_assoc (a b c : string) : (a +:+ b) +:+ c = a +:+ b +:+ c.
Proof.
  induction a as [|x a IH]; [reflexivity|].
  change (String x ((a +:+ b) +:+ c) = String x (a +:+ b +:+ c)). by f_equal.
Qed.

Lemma string_app_empty_r (a : string) : a +:+ "" = a.
Proof.
  induction a as [|x a IH]; [reflexivity|].
  change (String x (a +:+ "") = String x a). by f_equal.
Qed.

Lemma string_app_cons (x : ascii) (a b : string) :
  String x a +:+ b = String x (a +:+ b).
Proof. reflexivity. Qed.

Lemma split_on_cons sep cur s : ∃ piece pieces, split_on sep cur s = piece :: pieces.
Proof.
  revert cur. induction s as [|c s IH]; intros cur; simpl; [eauto|].
  case_decide; eauto.
Qed.

Lemma split_on_join sep cur s :
  String.concat (String sep "") (split_on sep cur s) = cur +:+ s.
Proof.
  revert cur. induction s as [|c s IH]; intros cur; simpl.
  - by rewrite string_app_empty_r.
  - case_decide as Hc.
    + subst c. specialize (IH "").
      destruct (split_on_cons sep "" s) as (piece & pieces & Hs).
      rewrite Hs in *.
      change (cur +:+ String sep "" +:+ String.concat (String sep "") (piece :: pieces)
              = cur +:+ String sep s).
      by rewrite IH.
    + by rewrite IH, string_app_assoc.
Qed.

Lemma split_on_pieces sep cur s :
  sep ∉ list_ascii_of_string cur →
  Forall (fun piece => sep ∉ list_ascii_of_string piece) (split_on sep cur s).
Proof.
  revert cur. induction s as [|c s IH]; intros cur Hcur; simpl.
  - by apply Forall_singleton.
  - case_decide as Hc.
    + apply Forall_cons. split; [done|]. apply IH. apply not_elem_of_nil.
    + apply IH. clear IH. induction cur as [|x cur IH]; simpl in *.
      * by intros [?|?%elem_of_nil]%elem_of_cons.
      * intros [Hx|?]%elem_of_cons; [apply Hcur; rewrite Hx; by left|].
        apply IH; [|done]. intros ?. apply Hcur. by right.
Qed.

Lemma split_on_length sep cur s :
  length (split_on sep cur s)
  = S (length (filter (fun c => c = sep) (list_ascii_of_string s))).
Proof.
  revert cur. induction s as [|c s IH]; intros cur; simpl; [done|].
  rewrite filter_cons. case_decide; simpl; by rewrite IH.
Qed.

(** The pieces of [tags.split(' ')], joined again by single spaces, are the
    string that was split; no piece holds a space; and there is one piece
    more than there are spaces (so an empty string gives one empty piece
    and two adjacent spaces give an empty piece). *)
Theorem split_space_join tags :
  String.concat " " (split_space tags) = tags
  ∧ Forall (fun piece => " "%char ∉ list_ascii_of_string piece) (split_space tags)
  ∧ length (split_space tags)
    = S (length (filter (fun c => c = " "%char) (list_ascii_of_string tags))).
Proof.
  unfold split_space. split_and!.
  - apply (split_on_join " "%char "" tags).
  - apply split_on_pieces. apply not_elem_of_nil.
  - apply split_on_length.
Qed.

Lemma eat_digits_spec n : ∀ s rest,
  eat_digits n s = Some rest
  ↔ ∃ d, s = d +:+ rest ∧ String.length d = n
         ∧ Forall (fun c => is_digit c = true) (list_ascii_of_string d).
Proof.
  induction n as [|n IH]; intros s rest; simpl.
  - split.
    + intros [= ->]. exists "". split_and!; [done | done | constructor].
    + intros (d & -> & Hlen & _). by destruct d.
  - destruct s as [|c s].
    + split; [done|]. intros ([|x d] & Hs & Hlen & _); simplify_eq/=.
    + destruct (is_digit c) eqn:Hc.
      * rewrite IH. split.
        -- intros (d & -> & Hlen & Hd). exists (String c d).
           split_and!; [done | simpl; by rewrite Hlen | by constructor].
        -- intros ([|x d] & Hs & Hlen & Hd); [simplify_eq/=|].
           rewrite string_app_cons in Hs. simpl in Hlen, Hd.
           apply Forall_cons in Hd as [_ Hd]. simplify_eq. eauto.
      * split; [done|]. intros ([|x d] & Hs & Hlen & Hd); [simplify_eq/=|].
        rewrite string_app_cons in Hs. simpl in Hd.
        apply Forall_cons in Hd as [Hx _]. simplify_eq. congruence.
Qed.

(** [re.match(RE_ID, s)] succeeds exactly on the strings made of eight
    ASCII digits, and on those followed by one newline that ends the
    string. *)
Theorem re_match_RE_ID_spec s :
  re_match_RE_ID s = true
  ↔ ∃ d, String.length d = 8
         ∧ Forall (fun c => is_digit c = true) (list_ascii_of_string d)
         ∧ (s = d ∨ s = d +:+ newline).
Proof.
  unfold re_match_RE_ID. split.
  - destruct (eat_digits 8 s) as [rest|] eqn:Heat; [|done].
    apply eat_digits_spec in Heat as (d & -> & Hlen & Hd).
    unfold at_dollar. intros [Hr|Hr]%orb_true_iff; apply bool_decide_eq_true in Hr;
      subst rest; exists d; split_and!; try done.
    + left. by rewrite string_app_empty_r.
    + by right.
  - intros (d & Hlen & Hd & [->| ->]).
    + assert (Heat : eat_digits 8 d = Some "").
      { apply eat_digits_spec. exists d. by rewrite string_app_empty_r. }
      by rewrite Heat.
    + assert (Heat : eat_digits 8 (d +:+ newline) = Some newline).
      { apply eat_digits_spec. by exists d. }
      by rewrite Heat.
Qed.

(** ** Dictionaries *)

Section odict_facts.
Context {K V : Type} `{EqDecision K}.
Implicit Types (k : K) (v : V) (d : list (K * V)).

Lemma dict_get_set_eq k v d : dict_get k (dict_set k v d) = Some v.
Proof.
  induction d as [|[k' v'] d IH]; simpl.
  - by rewrite decide_True.
  - destruct (decide (k = k')); simpl.
    + by rewrite decide_True.
    + by rewrite decide_False.
Qed.

Lemma dict_get_set_ne k k' v d :
  k ≠ k' → dict_get k' (dict_set k v d) = dict_get k' d.
Proof.
  intros Hne. induction d as [|[k0 v0] d IH]; simpl.
  - by rewrite decide_False.
  - destruct (decide (k = k0)) as [->|]; simpl.
    + by rewrite !decide_False.
    + destruct (decide (k' = k0)); done.
Qed.

Lemma dict_get_set k k' v d :
  dict_get k' (dict_set k v d) = if decide (k = k') then Some v else dict_get k' d.
Proof.
  destruct (decide (k = k')) as [->|].
  - apply dict_get_set_eq.
  - by apply dict_get_set_ne.
Qed.

Lemma dict_get_Some_elem k v d : dict_get k d = Some v → (k, v) ∈ d.
Proof.
  induction d as [|[k' v'] d IH]; simpl; [done|].
  destruct (decide (k = k')) as [->|].
  - intros [= ->]. left.
  - intros. right. auto.
Qed.

Lemma dict_keys_get k d : k ∈ dict_keys d ↔ is_Some (dict_get k d).
Proof.
  unfold dict_keys. induction d as [|[k' v'] d IH]; simpl.
  - split; [by intros ?%elem_of_nil | by intros [? ?]].
  - rewrite elem_of_cons. destruct (decide (k = k')) as [->|].
    + split; eauto.
    + rewrite IH. split; [intros [?|?]; done | by right].
Qed.

Lemma dict_set_elem k v k' v' d :
  (k', v') ∈ dict_set k v d → (k', v') = (k, v) ∨ (k', v') ∈ d.
Proof.
  induction d as [|[k0 v0] d IH]; simpl.
  - intros ->%list_elem_of_singleton. by left.
  - destruct (decide (k = k0)) as [->|].
    + rewrite !elem_of_cons. intros [?|?]; auto.
    + rewrite !elem_of_cons. intros [?|?]; [auto|].
      destruct IH as [?|?]; auto.
Qed.

Lemma dict_keys_set k v d :
  dict_keys (dict_set k v d) =
    if decide (k ∈ dict_keys d) then dict_keys d else dict_keys d ++ [k].
Proof.
  unfold dict_keys. induction d as [|[k0 v0] d IH].
  - case_decide as Hin; [by apply elem_of_nil in Hin | done].
  - cbn [dict_set fmap list_fmap fst]. destruct (decide (k = k0)) as [->|Hne].
    + rewrite decide_True by left. done.
    + cbn [fmap list_fmap fst]. rewrite IH.
      destruct (decide (k ∈ d.*1)) as [Hin|Hin].
      * rewrite decide_True by (by right). done.
      * rewrite decide_False; [done|]. by intros [?|?]%elem_of_cons.
Qed.

Lemma dict_set_NoDup k v d : NoDup (dict_keys d) → NoDup (dict_keys (dict_set k v d)).
Proof.
  intros Hd. rewrite dict_keys_set. destruct (decide (k ∈ dict_keys d)); [done|].
  apply NoDup_app. split_and!; [done | | apply NoDup_singleton].
  intros x Hx ->%list_elem_of_singleton. done.
Qed.

Lemma dict_get_NoDup_elem k v d :
  NoDup (dict_keys d) → (k, v) ∈ d → dict_get k d = Some v.
Proof.
  unfold dict_keys. induction d as [|[k' v'] d IH]; simpl.
  - by intros _ ?%elem_of_nil.
  - intros [Hk Hd]%NoDup_cons [Heq|Hin]%elem_of_cons.
    + simplify_eq. by rewrite decide_True.
    + rewrite decide_False; [by apply IH|].
      intros ->. apply Hk. apply list_elem_of_fmap. by exists (k', v).
Qed.

Lemma dict_of_keys_aux (pairs : list (K * V)) d k :
  k ∈ dict_keys (foldl (fun d kv => dict_set kv.1 kv.2 d) d pairs)
  ↔ k ∈ dict_keys d ∨ k ∈ pairs.*1.
Proof.
  revert d. induction pairs as [|[k0 v0] pairs IH]; intros d; simpl.
  - rewrite elem_of_nil. tauto.
  - rewrite IH, dict_keys_set, elem_of_cons.
    destruct (decide (k0 ∈ dict_keys d)).
    + split; [tauto|]. intros [?|[->|?]]; auto.
    + rewrite elem_of_app, list_elem_of_singleton. tauto.
Qed.

Lemma dict_of_elem (pairs : list (K * V)) k v :
  (k, v) ∈ dict_of pairs → (k, v) ∈ pairs.
Proof.
  unfold dict_of.
  assert (Hgen : ∀ d, (k, v) ∈ foldl (fun d kv => dict_set kv.1 kv.2 d) d pairs →
            (k, v) ∈ d ∨ (k, v) ∈ pairs).
  { induction pairs as [|[k0 v0] pairs IH]; intros d; simpl; [auto|].
    intros [Hd|Hp]%IH.
    - apply dict_set_elem in Hd as [->|?]; [right; left | auto].
    - right. by right. }
  intros [?%elem_of_nil|?]%Hgen; done.
Qed.

Lemma dict_of_keys (pairs : list (K * V)) k :
  k ∈ dict_keys (dict_of pairs) ↔ k ∈ pairs.*1.
Proof.
  unfold dict_of. rewrite dict_of_keys_aux. unfold dict_keys; simpl.
  rewrite elem_of_nil. tauto.
Qed.
End odict_facts.

(** ** Runs *)

Lemma bind_ok {A B} (m : M A) (k : A -> M B) w a w1 :
  m w = (Ok a, w1) → bind m k w = k a w1.
Proof. intros Hm. unfold bind. by rewrite Hm. Qed.

Lemma bind_raise {A B} (m : M A) (k : A -> M B) w e w1 :
  m w = (Raise e, w1) → bind m k w = (Raise e, w1).
Proof. intros Hm. unfold bind. by rewrite Hm. Qed.

Lemma bind_inv {A B} (m : M A) (k : A -> M B) w r w' :
  bind m k w = (r, w') →
  (∃ a w1, m w = (Ok a, w1) ∧ k a w1 = (r, w'))
  ∨ (∃ e, m w = (Raise e, w') ∧ r = Raise e).
Proof.
  unfold bind. destruct (m w) as [[a|e] w1]; intros Hk.
  - left. eauto.
  - right. simplify_eq. eauto.
Qed.

Lemma for_each_app {A} (body : A -> M unit) xs ys w :
  for_each body (xs ++ ys) w = bind (for_each body xs) (fun _ => for_each body ys) w.
Proof.
  revert w. induction xs as [|x xs IH]; intros w; simpl.
  - done.
  - unfold bind in *. destruct (body x w) as [[[]|e] w1]; [|done].
    by rewrite IH.
Qed.

(** ** Loading the rows *)

Lemma load_rows_valid id_fieldname rows : ∀ acc w,
  Forall (fun r => cell_matches id_fieldname r = true) rows →
  ∃ loaded_data,
    load_rows id_fieldname rows acc w = (Ok loaded_data, w)
    ∧ (NoDup (dict_keys acc) → NoDup (dict_keys loaded_data))
    ∧ ∀ k, dict_get k loaded_data =
           match last (filter (has_id id_fieldname k) rows) with
           | Some r => Some r
           | None => dict_get k acc
           end.
Proof.
  induction rows as [|r rows IH]; intros acc w Hall.
  - exists acc. simpl. split_and!; done.
  - apply Forall_cons in Hall as [Hr Hall]. unfold cell_matches in Hr.
    destruct (dict_get (Some id_fieldname) r) as [[s| |]|] eqn:Hget; try done.
    destruct (IH (dict_set s r acc) w Hall) as (ld & Hrun & Hnd & Hget').
    exists ld. split_and!.
    + simpl. unfold getitem. rewrite Hget. unfold bind, ret, re_match; simpl.
      rewrite Hr. done.
    + intros Hacc. apply Hnd. by apply dict_set_NoDup.
    + intros k. rewrite Hget'. rewrite filter_cons.
      destruct (decide (has_id id_fieldname k r)) as [Hk|Hk].
      * unfold has_id in Hk. rewrite Hget in Hk. simplify_eq.
        destruct (filter _ rows) as [|r' rs] eqn:Hf; simpl.
        -- by rewrite dict_get_set_eq.
        -- rewrite last_cons. by destruct (last rs).
      * destruct (last (filter _ rows)); [done|].
        rewrite dict_get_set_ne; [done|].
        intros ->. apply Hk. done.
Qed.

Lemma load_rows_invalid id_fieldname pre bad post : ∀ acc w,
  Forall (fun r => cell_matches id_fieldname r = true) pre →
  cell_matches id_fieldname bad = false →
  load_rows id_fieldname (pre ++ bad :: post) acc w
  = (Raise (row_error id_fieldname bad), w).
Proof.
  induction pre as [|r pre IH]; intros acc w Hall Hbad.
  - simpl. unfold cell_matches in Hbad. unfold row_error, getitem.
    destruct (dict_get (Some id_fieldname) bad) as [[s| |]|]; try done.
    unfold bind, ret, re_match; simpl. by rewrite Hbad.
  - apply Forall_cons in Hall as [Hr Hall]. unfold cell_matches in Hr.
    simpl. unfold getitem.
    destruct (dict_get (Some id_fieldname) r) as [[s| |]|] eqn:Hget; try done.
    unfold bind, ret, re_match; simpl. rewrite Hr. by apply IH.
Qed.

Lemma load_rows_entries id_fieldname rows : ∀ acc w loaded_data w',
  load_rows id_fieldname rows acc w = (Ok loaded_data, w') →
  w' = w
  ∧ ∀ k r, (k, r) ∈ loaded_data →
      (k, r) ∈ acc ∨ (r ∈ rows ∧ re_match_RE_ID k = true ∧ has_id id_fieldname k r).
Proof.
  induction rows as [|r0 rows IH]; intros acc w ld w'; simpl.
  - intros [= -> ->]. auto.
  - unfold getitem.
    destruct (dict_get (Some id_fieldname) r0) as [[s| |]|] eqn:Hget;
      unfold bind, ret, raise, re_match; simpl; try done.
    destruct (re_match_RE_ID s) eqn:Hm; [|done].
    intros Hrun. apply IH in Hrun as [-> Hent]. split; [done|].
    intros k r Hin. destruct (Hent k r Hin) as [Hacc|(? & ? & ?)].
    + apply dict_set_elem in Hacc as [?|?]; [|auto].
      simplify_eq. right. split_and!; [left | done | done].
    + right. split_and!; [by right | done | done].
Qed.

(** ** Rows of a reader *)

Lemma zip_fst_take {A B} (l : list A) (k : list B) x :
  x ∈ take (length k) l → x ∈ (zip l k).*1.
Proof.
  revert k. induction l as [|a l IH]; intros [|b k]; simpl;
    try (by intros ?%elem_of_nil).
  intros [->|?]%elem_of_cons; [left | right; auto].
Qed.

Lemma fill_missing_keys (keys : list string) : ∀ (d : row) k,
  k ∈ dict_keys d ∨ k ∈ Some <$> keys →
  k ∈ dict_keys (foldl (fun d key => dict_set (Some key) PyNone d) d keys).
Proof.
  induction keys as [|key keys IH]; intros d k; simpl.
  - intros [?|?%elem_of_nil]; done.
  - intros Hk. apply IH. rewrite dict_keys_set.
    destruct (decide (Some key ∈ dict_keys d)).
    + destruct Hk as [?|[->|?]%elem_of_cons]; auto.
    + rewrite elem_of_app, list_elem_of_singleton.
      destruct Hk as [?|[->|?]%elem_of_cons]; auto.
Qed.

(** Every column of the header is a key of every row. *)
Lemma make_row_has_key fieldnames record f :
  f ∈ fieldnames → is_Some (dict_get (Some f) (make_row fieldnames record)).
Proof.
  intros Hf. apply dict_keys_get. unfold make_row.
  assert (Hzip : ∀ g, g ∈ take (length record) fieldnames →
            Some g ∈ dict_keys (dict_of (zip (Some <$> fieldnames) (Str <$> record)))).
  { intros g Hg. apply dict_of_keys, zip_fst_take.
    rewrite length_fmap, <- fmap_take. by apply list_elem_of_fmap_2. }
  destruct (decide (length fieldnames < length record)).
  - rewrite dict_keys_set. case_decide; [| apply elem_of_app; left];
      apply Hzip; rewrite take_ge by lia; done.
  - rewrite <- (take_drop (length record) fieldnames) in Hf.
    apply elem_of_app in Hf as [Hf|Hf].
    + case_decide; [apply fill_missing_keys; left|]; by apply Hzip.
    + case_decide.
      * apply fill_missing_keys. right. by apply list_elem_of_fmap_2.
      * rewrite drop_ge in Hf by lia. by apply elem_of_nil in Hf.
Qed.

Lemma reader_rows_has_key records fieldnames r f :
  reader_fieldnames records = Some fieldnames →
  r ∈ reader_rows records → f ∈ fieldnames →
  is_Some (dict_get (Some f) r).
Proof.
  destruct records as [|hd rest]; simpl; [done|].
  intros [= ->] (record & -> & _)%list_elem_of_fmap Hf.
  by apply make_row_has_key.
Qed.

Lemma list_index_elem f fieldnames :
  f ∈ fieldnames → ∃ i, list_index f fieldnames = Some i.
Proof.
  induction fieldnames as [|g fieldnames IH]; simpl.
  - by intros ?%elem_of_nil.
  - intros Hf. destruct (decide (f = g)); [eauto|].
    apply elem_of_cons in Hf as [?|Hf]; [done|].
    destruct (IH Hf) as [i ->]. eauto.
Qed.

(** ** Column inference *)

(** The scanning loop asks exactly what [ask_candidates] asks, provided
    the first row has a string in every column still to be scanned. *)
Lemma scan_fieldnames_asks fieldnames firstrow todo : ∀ w,
  (∀ f, f ∈ todo → f ∈ fieldnames) →
  (∀ f, f ∈ todo → ∃ s, dict_get (Some f) firstrow = Some (Str s)) →
  scan_fieldnames fieldnames firstrow todo w =
    let '(asked, o) :=
      ask_candidates (filter (fun f => cell_matches f firstrow = true) todo) (stdin w) in
    (match o with
     | Confirmed f => Ok (Some f)
     | Unconfirmed => Ok None
     | InputEnded => Raise EOFError
     end,
     {| stdin := drop (length asked) (stdin w);
        trace := trace w ++ asked_events fieldnames asked |}).
Proof.
  induction todo as [|f todo IH]; intros w Hin Hstr.
  - simpl. unfold ret. destruct w; simpl. by rewrite app_nil_r.
  - destruct (Hstr f) as [s Hs]; [left|].
    destruct (list_index_elem f fieldnames) as [i Hi]; [apply Hin; left|].
    assert (Hin' : ∀ g, g ∈ todo → g ∈ fieldnames) by (intros; apply Hin; by right).
    assert (Hstr' : ∀ g, g ∈ todo → ∃ s, dict_get (Some g) firstrow = Some (Str s))
      by (intros; apply Hstr; by right).
    assert (Hcm : cell_matches f firstrow = re_match_RE_ID s)
      by (unfold cell_matches; by rewrite Hs).
    rewrite filter_cons.
    cbn [scan_fieldnames]. unfold getitem. rewrite Hs, Hi.
    unfold bind, ret, lift, re_match. simpl.
    destruct (re_match_RE_ID s) eqn:Hm; simpl.
    + rewrite decide_True by congruence. unfold input.
      destruct (stdin w) as [|a answers] eqn:Hw; simpl.
      * unfold asked_events, column_number; simpl. by rewrite Hi.
      * destruct (affirmative a) eqn:Ha; simpl.
        -- unfold asked_events, column_number; simpl. rewrite Hi. by rewrite drop_0.
        -- rewrite IH by done. simpl.
           destruct (ask_candidates _ answers) as [asked o]. simpl.
           unfold column_number. rewrite Hi, <- app_assoc. done.
    + rewrite decide_False by congruence. by apply IH.
Qed.

(** The same for a first part of the columns to scan: when the questioning
    over that part ends, by a confirmation or by the end of the input, the
    columns after it are not looked at; when every candidate of the part is
    declined, the scan goes on with the columns after it. *)
Lemma scan_fieldnames_asks_prefix fieldnames firstrow scanned rest : ∀ w,
  (∀ f, f ∈ scanned → f ∈ fieldnames) →
  (∀ f, f ∈ scanned → ∃ s, dict_get (Some f) firstrow = Some (Str s)) →
  scan_fieldnames fieldnames firstrow (scanned ++ rest) w =
    let '(asked, o) :=
      ask_candidates (filter (fun f => cell_matches f firstrow = true) scanned)
        (stdin w) in
    match o with
    | Confirmed f =>
        (Ok (Some f),
         {| stdin := drop (length asked) (stdin w);
            trace := trace w ++ asked_events fieldnames asked |})
    | Unconfirmed =>
        scan_fieldnames fieldnames firstrow rest
          {| stdin := drop (length asked) (stdin w);
             trace := trace w ++ asked_events fieldnames asked |}
    | InputEnded =>
        (Raise EOFError,
         {| stdin := drop (length asked) (stdin w);
            trace := trace w ++ asked_events fieldnames asked |})
    end.
Proof.
  induction scanned as [|f scanned IH]; intros w Hin Hstr.
  - simpl. destruct w; simpl. by rewrite app_nil_r.
  - destruct (Hstr f) as [s Hs]; [left|].
    destruct (list_index_elem f fieldnames) as [i Hi]; [apply Hin; left|].
    assert (Hin' : ∀ g, g ∈ scanned → g ∈ fieldnames) by (intros; apply Hin; by right).
    assert (Hstr' : ∀ g, g ∈ scanned → ∃ s, dict_get (Some g) firstrow = Some (Str s))
      by (intros; apply Hstr; by right).
    assert (Hcm : cell_matches f firstrow = re_match_RE_ID s)
      by (unfold cell_matches; by rewrite Hs).
    rewrite filter_cons.
    cbn [app scan_fieldnames]. unfold getitem. rewrite Hs, Hi.
    unfold bind, ret, lift, re_match. simpl.
    destruct (re_match_RE_ID s) eqn:Hm; simpl.
    + rewrite decide_True by congruence. unfold input.
      destruct (stdin w) as [|a answers] eqn:Hw; simpl.
      * unfold asked_events, column_number; simpl. by rewrite Hi.
      * destruct (affirmative a) eqn:Ha; simpl.
        -- unfold asked_events, column_number; simpl. rewrite Hi. by rewrite drop_0.
        -- rewrite IH by done. simpl.
           destruct (ask_candidates _ answers) as [asked o]. simpl.
           unfold column_number. rewrite Hi, <- app_assoc. done.
    + rewrite decide_False by congruence. by apply IH.
Qed.




(** Whatever the file holds, the scan only prompts, and a column it
    returns is one it was given. *)
Lemma scan_fieldnames_any fieldnames firstrow todo : ∀ w r w',
  scan_fieldnames fieldnames firstrow todo w = (r, w') →
  (∃ evs, trace w' = trace w ++ evs ∧ Forall (fun e => is_network e = false) evs)
  ∧ ∀ f, r = Ok (Some f) → f ∈ todo.
Proof.
  induction todo as [|f todo IH]; intros w r w'; simpl.
  - intros [= <- <-]. split; [exists []; by rewrite app_nil_r | done].
  - assert (Hrec : ∀ w1, scan_fieldnames fieldnames firstrow todo w1 = (r, w') →
      (∃ evs, trace w' = trace w1 ++ evs ∧ Forall (fun e => is_network e = false) evs)
      ∧ ∀ g, r = Ok (Some g) → g ∈ f :: todo).
    { intros w1 Hrun. destruct (IH _ _ _ Hrun) as [? Hf]. split; [done|].
      intros g Hg. right. auto. }
    unfold getitem, re_match, input, lift, bind, ret, raise.
    destruct (dict_get (Some f) firstrow) as [[s| |]|]; simpl;
      try (intros [= <- <-]; split; [exists []; by rewrite app_nil_r | done]).
    destruct (re_match_RE_ID s); simpl; [|by apply Hrec].
    destruct (list_index f fieldnames); simpl;
      [|intros [= <- <-]; split; [exists []; by rewrite app_nil_r | done]].
    destruct (stdin w) as [|a answers]; simpl.
    + intros [= <- <-]. split; [|done]. eexists. split; [done|].
      by apply Forall_singleton.
    + destruct (affirmative a); simpl.
      * intros [= <- <-]. split.
        -- eexists. split; [done|]. by apply Forall_singleton.
        -- intros g [= ->]. left.
      * intros Hrun. destruct (Hrec _ Hrun) as [(evs & Htr & Hevs) Hf].
        split; [|done]. simpl in Htr. rewrite <- app_assoc in Htr.
        eexists. split; [done|]. apply Forall_app. split; [|done].
        by apply Forall_singleton.
Qed.

Lemma get_projmemid_fieldname_any surveydata w r w' :
  get_projmemid_fieldname surveydata w = (r, w') →
  (∃ evs, trace w' = trace w ++ evs ∧ Forall (fun e => is_network e = false) evs)
  ∧ ∀ f, r = Ok f →
      ∃ text fieldnames, fs surveydata = Some text
        ∧ reader_fieldnames (csv_reader text) = Some fieldnames
        ∧ f ∈ fieldnames.
Proof.
  unfold get_projmemid_fieldname, open, next_row.
  destruct (fs surveydata) as [text|]; unfold bind, ret, raise; simpl;
    [|intros [= <- <-]; split; [exists []; by rewrite app_nil_r | done]].
  destruct (reader_rows (csv_reader text)) as [|firstrow rows] eqn:Hrows; simpl;
    [intros [= <- <-]; split; [exists []; by rewrite app_nil_r | done]|].
  destruct (reader_fieldnames (csv_reader text)) as [fieldnames|] eqn:Hfn;
    [|by destruct (csv_reader text)].
  simpl.
  destruct (scan_fieldnames fieldnames firstrow fieldnames w) as [r1 w1] eqn:Hscan.
  apply scan_fieldnames_any in Hscan as [Htr Hf].
  destruct r1 as [[name|]|e]; unfold truthy.
  - destruct (bool_decide (name = "")); simpl; intros [= <- <-]; split; try done.
    intros f [= <-]. exists text, fieldnames. split_and!; auto.
  - intros [= <- <-]. done.
  - intros [= <- <-]. done.
Qed.

(** C9.  A file with a header and no data row: reading the first data row
    raises [StopIteration], so [get_projmemid_fieldname] and with it
    [load_survey_data] (once the header sniff has passed) fail with that
    exception; the operator is never prompted (the world is unchanged), and
    the exception is not the one that reports an undeterminable column. *)
Theorem header_only_raises_StopIteration surveydata text w :
  fs surveydata = Some text →
  has_header (read_1024 text) = Ok true →
  reader_rows (csv_reader text) = [] →
  get_projmemid_fieldname surveydata w = (Raise StopIteration, w)
  ∧ load_survey_data surveydata w = (Raise StopIteration, w)
  ∧ StopIteration ≠ unable.
Proof.
  intros Hfs Hsniff Hrows.
  assert (Hget : get_projmemid_fieldname surveydata w = (Raise StopIteration, w)).
  { unfold get_projmemid_fieldname, open, next_row, bind, ret, raise.
    rewrite Hfs. simpl. by rewrite Hrows. }
  split_and!; [done | | done].
  unfold load_survey_data, open, lift, bind, ret, raise.
  rewrite Hfs. simpl. rewrite Hsniff. simpl. by rewrite Hget.
Qed.


Lemma load_rows_NoDup id_fieldname rows : ∀ acc w loaded_data w',
  load_rows id_fieldname rows acc w = (Ok loaded_data, w') →
  NoDup (dict_keys acc) → NoDup (dict_keys loaded_data).
Proof.
  induction rows as [|r0 rows IH]; intros acc w ld w'; simpl.
  - by intros [= -> ->].
  - unfold getitem, re_match, bind, ret, raise.
    destruct (dict_get (Some id_fieldname) r0) as [[s| |]|]; simpl; try done.
    destruct (re_match_RE_ID s); simpl; [|done].
    intros Hrun Hacc. eapply IH; [done|]. by apply dict_set_NoDup.
Qed.

(** *** Further facts about column inference *)

Lemma scan_fieldnames_sound fieldnames firstrow todo : ∀ w f w',
  scan_fieldnames fieldnames firstrow todo w = (Ok (Some f), w') →
  ∃ asked a,
    f ∈ todo ∧ cell_matches f firstrow = true ∧ affirmative a = true
    ∧ Forall (fun gb => gb.1 ∈ todo ∧ cell_matches gb.1 firstrow = true
                        ∧ affirmative gb.2 = false) asked
    ∧ stdin w = asked.*2 ++ a :: stdin w'
    ∧ trace w' = trace w ++
        ((fun gb => EvInput (prompt_for (column_number fieldnames gb.1) gb.1)
                      (Some gb.2)) <$> (asked ++ [(f, a)])).
Proof.
  induction todo as [|g todo IH]; intros w f w'; simpl; [done|].
  assert (Hrec : ∀ w1 before,
    trace w1 = trace w ++ ((fun gb => EvInput (prompt_for (column_number fieldnames gb.1) gb.1)
                              (Some gb.2)) <$> before) →
    stdin w = before.*2 ++ stdin w1 →
    Forall (fun gb => gb.1 ∈ g :: todo ∧ cell_matches gb.1 firstrow = true
                      ∧ affirmative gb.2 = false) before →
    scan_fieldnames fieldnames firstrow todo w1 = (Ok (Some f), w') →
    ∃ asked a,
      f ∈ g :: todo ∧ cell_matches f firstrow = true ∧ affirmative a = true
      ∧ Forall (fun gb => gb.1 ∈ g :: todo ∧ cell_matches gb.1 firstrow = true
                          ∧ affirmative gb.2 = false) asked
      ∧ stdin w = asked.*2 ++ a :: stdin w'
      ∧ trace w' = trace w ++
          ((fun gb => EvInput (prompt_for (column_number fieldnames gb.1) gb.1)
                        (Some gb.2)) <$> (asked ++ [(f, a)]))).
  { intros w1 before Htr Hin Hbefore Hrun.
    destruct (IH _ _ _ Hrun) as (asked & a & Hf & Hm & Ha & Hasked & Hin' & Htr').
    exists (before ++ asked), a. split_and!; [by right | done | done | | |].
    - apply Forall_app. split; [done|].
      eapply Forall_impl; [done|]. intros gb (? & ? & ?). split_and!; [by right | done | done].
    - rewrite Hin, Hin', fmap_app, <- app_assoc. done.
    - rewrite Htr', Htr, !fmap_app, <- ?app_assoc. done. }
  unfold getitem, re_match, input, lift, bind, ret, raise.
  destruct (dict_get (Some g) firstrow) as [[s| |]|] eqn:Hg; simpl; try done.
  destruct (re_match_RE_ID s) eqn:Hm; simpl.
  - destruct (list_index g fieldnames) as [i|] eqn:Hi; simpl; [|done].
    assert (Hcol : column_number fieldnames g = i + 1)
      by (unfold column_number; by rewrite Hi).
    assert (Hcm : cell_matches g firstrow = true)
      by (unfold cell_matches; by rewrite Hg).
    destruct (stdin w) as [|a answers] eqn:Hw; simpl; [done|].
    destruct (affirmative a) eqn:Ha; simpl.
    + intros [= <- <-]. exists [], a. simpl. rewrite Hcol.
      split_and!; [left | done | done | constructor | done | done].
    + intros Hrun. apply (Hrec _ [(g, a)]) in Hrun; [done | | |].
      * simpl. by rewrite Hcol.
      * done.
      * apply Forall_singleton. split_and!; [left | done | done].
  - intros Hrun. apply (Hrec _ []) in Hrun; [done | | | constructor].
    + simpl. by rewrite app_nil_r.
    + done.
Qed.

(** A column that [get_projmemid_fieldname] returns is a column of the
    header with a non-empty name whose value in the first data row matches
    [RE_ID]; it was the subject of the last prompt, the only one answered
    affirmatively; every prompt before it was for a matching column of the
    header and was declined; and one line of input was read per prompt.
    This holds of every file and every operator. *)
Theorem get_projmemid_fieldname_sound surveydata w f w' :
  get_projmemid_fieldname surveydata w = (Ok f, w') →
  ∃ text fieldnames firstrow asked a,
    fs surveydata = Some text
    ∧ reader_fieldnames (csv_reader text) = Some fieldnames
    ∧ head (reader_rows (csv_reader text)) = Some firstrow
    ∧ f ∈ fieldnames ∧ f ≠ "" ∧ cell_matches f firstrow = true
    ∧ affirmative a = true
    ∧ Forall (fun gb => gb.1 ∈ fieldnames ∧ cell_matches gb.1 firstrow = true
                        ∧ affirmative gb.2 = false) asked
    ∧ stdin w = asked.*2 ++ a :: stdin w'
    ∧ trace w' = trace w ++
        ((fun gb => EvInput (prompt_for (column_number fieldnames gb.1) gb.1)
                      (Some gb.2)) <$> (asked ++ [(f, a)])).
Proof.
  unfold get_projmemid_fieldname, open, next_row.
  destruct (fs surveydata) as [text|] eqn:Hfs; unfold bind, ret, raise; simpl;
    [|done].
  destruct (reader_rows (csv_reader text)) as [|firstrow rows] eqn:Hrows; simpl;
    [done|].
  destruct (reader_fieldnames (csv_reader text)) as [fieldnames|] eqn:Hfn;
    [|by destruct (csv_reader text)].
  simpl.
  destruct (scan_fieldnames fieldnames firstrow fieldnames w) as [r1 w1] eqn:Hscan.
  destruct r1 as [[name|]|e]; unfold truthy; [|done|done].
  case_bool_decide as Hname; simpl; [done|]. intros [= <- <-].
  apply scan_fieldnames_sound in Hscan
    as (asked & a & Hf & Hm & Ha & Hasked & Hin & Htr).
  exists text, fieldnames, firstrow, asked, a.
  rewrite Hrows. split_and!; done.
Qed.

(** A confirmed column whose name is the empty string is not returned.
    The header is split into the columns scanned up to the confirmation
    and the columns after them, of which nothing is asked; the first data
    row has a string in every scanned column, so that the scan reaches the
    confirmation.  When the first affirmative answer falls on a column
    whose name is empty, the prompts are put as usual and the function
    then raises the error that reports an undeterminable column. *)
Theorem get_projmemid_fieldname_empty_name surveydata text scanned rest firstrow
    w asked :
  fs surveydata = Some text →
  reader_fieldnames (csv_reader text) = Some (scanned ++ rest) →
  head (reader_rows (csv_reader text)) = Some firstrow →
  (∀ f, f ∈ scanned → ∃ s, dict_get (Some f) firstrow = Some (Str s)) →
  ask_candidates (filter (fun f => cell_matches f firstrow = true) scanned)
    (stdin w) = (asked, Confirmed "") →
  get_projmemid_fieldname surveydata w =
    (Raise (Exception "Unable to determine column with project member ID."),
     {| stdin := drop (length asked) (stdin w);
        trace := trace w ++ asked_events (scanned ++ rest) asked |}).
Proof.
  intros Hfs Hfn Hfirst Hstr Hask.
  unfold get_projmemid_fieldname, open, next_row, bind, ret, raise.
  rewrite Hfs. simpl. rewrite Hfn.
  destruct (reader_rows (csv_reader text)) as [|r rows]; [done|].
  simpl in Hfirst. injection Hfirst as ->. simpl.
  rewrite scan_fieldnames_asks_prefix;
    [|intros f Hf; apply elem_of_app; by left | done].
  by rewrite Hask.
Qed.

(** The header is checked before anything is asked: unless the sniffer
    answers [True] on the first 1024 characters, [load_survey_data] fails
    with the world unchanged, by the header error when the answer is
    [False] and by the sniffer's own exception when it raises. *)
Theorem load_survey_data_header_first surveydata text w :
  fs surveydata = Some text →
  has_header (read_1024 text) ≠ Ok true →
  load_survey_data surveydata w =
    (match has_header (read_1024 text) with
     | Raise e => Raise e
     | Ok _ => Raise (Exception "CSV data doesn't appear to have a header!")
     end, w).
Proof.
  intros Hfs Hsniff.
  unfold load_survey_data, open, lift, bind, ret, raise. rewrite Hfs. simpl.
  by destruct (has_header (read_1024 text)) as [[|]|e].
Qed.

(** ** The loader *)

Lemma load_rows_world id_fieldname rows : ∀ acc w r w',
  load_rows id_fieldname rows acc w = (r, w') → w' = w.
Proof.
  induction rows as [|r0 rows IH]; intros acc w r w'; simpl.
  - by intros [= <- <-].
  - unfold getitem, re_match, bind, ret, raise.
    destruct (dict_get (Some id_fieldname) r0) as [[s| |]|]; simpl;
      try (by intros [= <- <-]).
    destruct (re_match_RE_ID s); simpl; [by apply IH | by intros [= <- <-]].
Qed.

Lemma load_survey_data_rows surveydata text id_fieldname w w1 :
  fs surveydata = Some text →
  has_header (read_1024 text) = Ok true →
  get_projmemid_fieldname surveydata w = (Ok id_fieldname, w1) →
  load_survey_data surveydata w
  = load_rows id_fieldname (reader_rows (csv_reader text)) [] w1.
Proof.
  intros Hfs Hsniff Hget.
  unfold load_survey_data, open, lift, bind, ret, raise.
  rewrite Hfs. simpl. rewrite Hsniff. simpl. by rewrite Hget.
Qed.

(** How a run of the loader can go. *)
Lemma load_survey_data_inv surveydata w r w' :
  load_survey_data surveydata w = (r, w') →
  (∃ e, r = Raise e ∧ w' = w)
  ∨ (∃ e, r = Raise e ∧ get_projmemid_fieldname surveydata w = (Raise e, w'))
  ∨ (∃ text id_fieldname,
       fs surveydata = Some text
       ∧ has_header (read_1024 text) = Ok true
       ∧ get_projmemid_fieldname surveydata w = (Ok id_fieldname, w')
       ∧ load_rows id_fieldname (reader_rows (csv_reader text)) [] w' = (r, w')).
Proof.
  unfold load_survey_data, open, lift, bind, ret, raise.
  destruct (fs surveydata) as [text|] eqn:Hfs; simpl;
    [|intros [= <- <-]; left; eauto].
  destruct (has_header (read_1024 text)) as [[|]|e] eqn:Hsniff; simpl;
    try (intros [= <- <-]; left; eauto).
  destruct (get_projmemid_fieldname surveydata w) as [[id_fieldname|e] w1] eqn:Hget;
    [|intros [= <- <-]; right; left; eauto].
  simpl. intros Hrows.
  pose proof (load_rows_world _ _ _ _ _ _ Hrows) as ->.
  right. right. exists text, id_fieldname. done.
Qed.

Lemma first_rejected {A} (P : A → bool) (l : list A) x :
  x ∈ l → P x = false →
  ∃ pre y post, l = pre ++ y :: post
    ∧ Forall (fun a => P a = true) pre ∧ P y = false.
Proof.
  induction l as [|a l IH]; [by intros ?%elem_of_nil|].
  intros Hx HP. destruct (P a) eqn:Ha.
  - apply elem_of_cons in Hx as [->|Hx]; [congruence|].
    destruct (IH Hx HP) as (pre & y & post & -> & Hpre & Hy).
    exists (a :: pre), y, post. split_and!; [done | by apply Forall_cons | done].
  - exists [], a, l. split_and!; done.
Qed.

(** C1, as amended.  Once the sniff has passed and the identifier column is
    inferred, a row whose cell in that column is not a string matching
    [RE_ID], wherever it stands in the file, makes [load_survey_data] raise
    and return no mapping.  The exception comes from the first such row: it
    is the error naming that row when the row has a string in the column,
    and [TypeError] when the row is too short to have one. *)
Theorem load_survey_data_malformed_row surveydata text id_fieldname w w1 bad :
  fs surveydata = Some text →
  has_header (read_1024 text) = Ok true →
  get_projmemid_fieldname surveydata w = (Ok id_fieldname, w1) →
  bad ∈ reader_rows (csv_reader text) →
  cell_matches id_fieldname bad = false →
  ∃ pre first post,
    reader_rows (csv_reader text) = pre ++ first :: post
    ∧ Forall (fun r => cell_matches id_fieldname r = true) pre
    ∧ cell_matches id_fieldname first = false
    ∧ load_survey_data surveydata w =
        (Raise (match dict_get (Some id_fieldname) first with
                | Some (Str _) => Exception (malformed_message first)
                | _ => TypeError
                end), w1).
Proof.
  intros Hfs Hsniff Hget Hbad Hcell.
  destruct (first_rejected (cell_matches id_fieldname) _ _ Hbad Hcell)
    as (pre & first & post & Hrows & Hpre & Hfirst).
  exists pre, first, post. split_and!; try done.
  rewrite (load_survey_data_rows _ _ _ _ _ Hfs Hsniff Hget), Hrows.
  rewrite load_rows_invalid by done. unfold row_error.
  apply get_projmemid_fieldname_any in Hget as [_ Hid].
  destruct (Hid _ eq_refl) as (text' & fieldnames & Hfs' & Hfn & Hin).
  assert (text' = text) as -> by congruence.
  destruct (reader_rows_has_key (csv_reader text) fieldnames first id_fieldname)
    as [c Hc]; [done | | done |].
  - rewrite Hrows. apply elem_of_app. right. left.
  - by rewrite Hc.
Qed.

(** C2.  With a header that passes the sniff and a confirmed identifier
    column in which every row has a value matching [RE_ID], the loader
    returns a mapping, raising nothing: its keys are pairwise distinct, they
    are exactly the identifier values that occur in the rows, and the entry
    of a key is the last row of the file that carries it. *)
Theorem load_survey_data_last_row_wins surveydata text id_fieldname w w1 :
  fs surveydata = Some text →
  has_header (read_1024 text) = Ok true →
  get_projmemid_fieldname surveydata w = (Ok id_fieldname, w1) →
  Forall (fun r => cell_matches id_fieldname r = true) (reader_rows (csv_reader text)) →
  ∃ loaded_data,
    load_survey_data surveydata w = (Ok loaded_data, w1)
    ∧ NoDup (dict_keys loaded_data)
    ∧ (∀ k, k ∈ dict_keys loaded_data
            ↔ ∃ r, r ∈ reader_rows (csv_reader text) ∧ has_id id_fieldname k r)
    ∧ (∀ k, dict_get k loaded_data
            = last (filter (has_id id_fieldname k) (reader_rows (csv_reader text)))).
Proof.
  intros Hfs Hsniff Hget Hall.
  destruct (load_rows_valid id_fieldname _ [] w1 Hall) as (ld & Hrun & Hnd & Hlook).
  assert (Hlook' : ∀ k, dict_get k ld
            = last (filter (has_id id_fieldname k) (reader_rows (csv_reader text)))).
  { intros k. rewrite Hlook. by destruct (last _). }
  exists ld. split_and!.
  - by rewrite (load_survey_data_rows _ _ _ _ _ Hfs Hsniff Hget).
  - apply Hnd. constructor.
  - intros k. rewrite dict_keys_get, Hlook'. split.
    + intros [r Hr]. exists r. apply last_Some in Hr as [l' Hr].
      assert (Hin : r ∈ filter (has_id id_fieldname k) (reader_rows (csv_reader text))).
      { rewrite Hr. apply elem_of_app. right. left. }
      by apply list_elem_of_filter in Hin as [? ?].
    + intros (r & Hr & Hk).
      assert (Hin : r ∈ filter (has_id id_fieldname k) (reader_rows (csv_reader text)))
        by (by apply list_elem_of_filter).
      destruct (filter _ _) as [|r' l'] using rev_ind; [by apply elem_of_nil in Hin|].
      rewrite last_snoc. eauto.
  - done.
Qed.

Lemma load_survey_data_NoDup surveydata w loaded_data w' :
  load_survey_data surveydata w = (Ok loaded_data, w') →
  NoDup (dict_keys loaded_data).
Proof.
  intros Hload.
  destruct (load_survey_data_inv _ _ _ _ Hload)
    as [(e & ? & _)|[(e & ? & _)|(text & id_fieldname & _ & _ & _ & Hrows)]];
    [done | done |].
  eapply load_rows_NoDup; [done | constructor].
Qed.

(** C10.  In a mapping that [load_survey_data] returns, every key matches
    [RE_ID] and is the very string that the row stored under it has in the
    identifier column, the column being the one that
    [get_projmemid_fieldname] returned in this run. *)
Theorem load_survey_data_keys_consistent surveydata w loaded_data w' :
  load_survey_data surveydata w = (Ok loaded_data, w') →
  ∃ id_fieldname,
    get_projmemid_fieldname surveydata w = (Ok id_fieldname, w')
    ∧ ∀ k r, (k, r) ∈ loaded_data →
        re_match_RE_ID k = true ∧ dict_get (Some id_fieldname) r = Some (Str k).
Proof.
  intros Hload.
  destruct (load_survey_data_inv _ _ _ _ Hload)
    as [(e & ? & _)|[(e & ? & _)|(text & id_fieldname & Hfs & Hsniff & Hget & Hrows)]];
    [done | done |].
  exists id_fieldname. split; [done|].
  destruct (load_rows_entries _ _ _ _ _ _ Hrows) as [_ Hent].
  intros k r Hin. destruct (Hent k r Hin) as [?%elem_of_nil|(_ & ? & ?)]; done.
Qed.

(** The loader only prompts: it adds no network event to the trace. *)
Lemma load_survey_data_trace surveydata w r w' :
  load_survey_data surveydata w = (r, w') →
  ∃ evs, trace w' = trace w ++ evs ∧ Forall (fun e => is_network e = false) evs.
Proof.
  intros Hload.
  destruct (load_survey_data_inv _ _ _ _ Hload)
    as [(e & _ & ->)|[(e & _ & Hget)|(text & id_fieldname & _ & _ & Hget & _)]].
  - exists []. by rewrite app_nil_r.
  - by apply get_projmemid_fieldname_any in Hget as [? _].
  - by apply get_projmemid_fieldname_any in Hget as [? _].
Qed.

(** *** The order of the dataset *)

Lemma load_rows_keys id_fieldname rows : ∀ acc w,
  Forall (fun r => cell_matches id_fieldname r = true) rows →
  ∃ loaded_data,
    load_rows id_fieldname rows acc w = (Ok loaded_data, w)
    ∧ dict_keys loaded_data
      = dict_keys acc
        ++ first_occurrences (dict_keys acc) (omap (row_id id_fieldname) rows).
Proof.
  induction rows as [|r rows IH]; intros acc w Hall.
  - exists acc. simpl. by rewrite app_nil_r.
  - apply Forall_cons in Hall as [Hr Hall]. unfold cell_matches in Hr.
    destruct (dict_get (Some id_fieldname) r) as [[s| |]|] eqn:Hget; try done.
    destruct (IH (dict_set s r acc) w Hall) as (ld & Hrun & Hkeys).
    exists ld. split.
    + simpl. unfold getitem. rewrite Hget. unfold bind, ret, re_match; simpl.
      by rewrite Hr.
    + rewrite Hkeys, dict_keys_set. simpl. unfold row_id at 2. rewrite Hget. simpl.
      destruct (decide (s ∈ dict_keys acc)); [done|].
      by rewrite <- app_assoc.
Qed.

(** The keys of the loaded dataset stand in the order in which the
    identifiers first occur in the file: a later row with the same
    identifier replaces the entry without moving it.  This is the order in
    which [surv_upload] goes through the identifiers. *)
Theorem load_survey_data_key_order surveydata text id_fieldname w w1 :
  fs surveydata = Some text →
  has_header (read_1024 text) = Ok true →
  get_projmemid_fieldname surveydata w = (Ok id_fieldname, w1) →
  Forall (fun r => cell_matches id_fieldname r = true) (reader_rows (csv_reader text)) →
  ∃ loaded_data,
    load_survey_data surveydata w = (Ok loaded_data, w1)
    ∧ dict_keys loaded_data
      = first_occurrences [] (omap (row_id id_fieldname) (reader_rows (csv_reader text))).
Proof.
  intros Hfs Hsniff Hget Hall.
  destruct (load_rows_keys id_fieldname _ [] w1 Hall) as (ld & Hrun & Hkeys).
  exists ld. split; [|done].
  by rewrite (load_survey_data_rows _ _ _ _ _ Hfs Hsniff Hget).
Qed.

(** ** The upload loop *)

(** The dictionary comprehension keeps the basenames of the files the
    member owns. *)
Lemma curr_project_data_owns md filename :
  filename ∈ dict_keys (curr_project_data md) ↔ owns md filename.
Proof.
  unfold curr_project_data, owns. rewrite dict_of_keys, <- list_fmap_compose.
  rewrite list_elem_of_fmap. split.
  - intros (f & -> & [? ?]%list_elem_of_filter). exists f. done.
  - intros (f & ? & ? & <-). exists f. split; [done|].
    by apply list_elem_of_filter.
Qed.

Lemma curr_project_data_entry md name f :
  dict_get name (curr_project_data md) = Some f →
  f ∈ data md ∧ (source f ∉ sources_shared md) ∧ basename f = name.
Proof.
  intros Hget%dict_get_Some_elem. unfold curr_project_data in Hget.
  apply dict_of_elem, list_elem_of_fmap in Hget as (f' & [= -> ->] & Hin).
  apply list_elem_of_filter in Hin as [? ?]. done.
Qed.

Section Loop.

Variables (mastertoken filename description tags : string).
Variable loaded_data : list (string * row).
Variable project_data : gmap string member_data.

Local Abbreviation body :=
  (upload_member mastertoken filename description tags loaded_data project_data).
Local Abbreviation turn :=
  (member_turn mastertoken filename description tags loaded_data project_data).
Local Abbreviation run :=
  (loop_run mastertoken filename description tags loaded_data project_data).

Lemma delete_part_run md projmemid w r w1 :
  (if bool_decide (filename ∈ dict_keys (curr_project_data md))
   then
     logging_info ("Deleting current " +:+ filename +:+ " for " +:+ projmemid) ;;
     _ <- requests_post (delete_request mastertoken projmemid filename) ;;
     ret tt
   else ret tt) w = (r, w1) →
  stdin w1 = stdin w
  ∧ ∃ dels o, trace w1 = trace w ++ dels
      ∧ delete_step mastertoken filename md projmemid (trace w) dels o
      ∧ r = match o with None => Ok tt | Some e => Raise e end.
Proof.
  case_bool_decide as Hown; rewrite curr_project_data_owns in Hown.
  - unfold logging_info, requests_post, emit, bind, ret; simpl.
    destruct (remote _ (delete_request _ _ _)) as [c|e] eqn:Hdel; simpl;
      intros [= <- <-]; (split; [done|]); simpl.
    + exists [EvLog INFO (msg_deleting filename projmemid);
              EvPost (delete_request mastertoken projmemid filename) (Ok c)], None.
      split_and!; [by rewrite <- app_assoc | by apply delete_answered | done].
    + exists [EvLog INFO (msg_deleting filename projmemid);
              EvPost (delete_request mastertoken projmemid filename) (Raise e)], (Some e).
      split_and!; [by rewrite <- app_assoc | by apply delete_raised | done].
  - unfold ret. intros [= <- <-]. split; [done|]. exists [], None.
    split_and!; [by rewrite app_nil_r | by apply delete_not_needed | done].
Qed.

Lemma report_run projmemid status_code w :
  (if bool_decide (status_code = 201%Z)
   then logging_info ("Upload of " +:+ filename +:+ " for " +:+ projmemid
                        +:+ " complete.")
   else logging_warning ("Upload error of " +:+ filename +:+ " for "
                           +:+ projmemid +:+ "!")) w
  = (Ok tt, {| stdin := stdin w;
               trace := trace w ++ [report filename projmemid status_code] |}).
Proof. unfold report. by case_bool_decide. Qed.

Lemma upload_part_run projmemid w r w' :
  (logging_info ("Uploading " +:+ filename +:+ " for " +:+ projmemid) ;;
   r <- getitem loaded_data projmemid ;;
   status_code <- requests_post
     (upload_request mastertoken projmemid filename (json_dumps r)
        (json_dumps (metadata tags description))) ;;
   if bool_decide (status_code = 201%Z) then
     logging_info ("Upload of " +:+ filename +:+ " for " +:+ projmemid
                     +:+ " complete.")
   else
     logging_warning ("Upload error of " +:+ filename +:+ " for "
                        +:+ projmemid +:+ "!")) w = (r, w') →
  stdin w' = stdin w
  ∧ ∃ ups, trace w' = trace w ++ ups
      ∧ upload_step mastertoken filename description tags loaded_data
          projmemid (trace w) ups r.
Proof.
  unfold bind at 1. unfold logging_info at 1, emit at 1. unfold getitem.
  destruct (dict_get projmemid loaded_data) as [row0|] eqn:Hrow.
  - unfold bind at 1, ret at 1. unfold bind at 1, requests_post. simpl.
    destruct (remote _ (upload_request _ _ _ _ _)) as [c|e] eqn:Hup.
    + rewrite report_run. simpl. intros [= <- <-]. split; [done|].
      exists [EvLog INFO (msg_uploading filename projmemid);
              EvPost (upload_of mastertoken filename description tags projmemid row0) (Ok c);
              report filename projmemid c].
      split; [by rewrite <- !app_assoc | by apply upload_answered].
    + intros [= <- <-]. split; [done|].
      exists [EvLog INFO (msg_uploading filename projmemid);
              EvPost (upload_of mastertoken filename description tags projmemid row0)
                (Raise e)].
      split; [by rewrite <- !app_assoc | by apply upload_raised].
  - unfold bind, raise. intros [= <- <-]. split; [done|].
    exists [EvLog INFO (msg_uploading filename projmemid)].
    split; [done | by apply upload_no_row].
Qed.

(** One turn of the loop, as events. *)
Lemma upload_member_turn projmemid w r w' :
  body projmemid w = (r, w') →
  stdin w' = stdin w
  ∧ ∃ evs, trace w' = trace w ++ evs ∧ turn projmemid (trace w) evs r.
Proof.
  unfold upload_member.
  destruct (project_data !! projmemid) as [md|] eqn:Hmd.
  - intros [(a & w1 & Hdel & Hup)|(e & Hdel & ->)]%bind_inv.
    + apply delete_part_run in Hdel as (Hin & dels & o & Htr & Hstep & Ho).
      destruct o as [e|]; [done|].
      apply upload_part_run in Hup as (Hin' & ups & Htr' & Hstep').
      split; [congruence|]. exists (dels ++ ups).
      split; [by rewrite Htr', Htr, app_assoc|].
      eapply turn_uploaded; [done | done |]. by rewrite <- Htr.
    + apply delete_part_run in Hdel as (Hin & dels & o & Htr & Hstep & Ho).
      destruct o as [e'|]; [|done]. injection Ho as ->.
      split; [done|]. exists dels. split; [done|].
      by eapply turn_delete_failed.
  - unfold logging_info, emit. intros [= <- <-]. split; [done|].
    exists [EvLog INFO (msg_skipping projmemid)]. split; [done|].
    by apply turn_skipped.
Qed.

(** The whole loop, as events. *)
Lemma for_each_loop_run keys : ∀ w r w',
  for_each body keys w = (r, w') →
  stdin w' = stdin w
  ∧ ∃ evs, trace w' = trace w ++ evs ∧ run keys (trace w) evs r.
Proof.
  induction keys as [|projmemid keys IH]; intros w r w'; simpl.
  - unfold ret. intros [= <- <-]. split; [done|]. exists [].
    split; [by rewrite app_nil_r | constructor].
  - intros [([] & w1 & Hturn & Hrest)|(e & Hturn & ->)]%bind_inv.
    + apply upload_member_turn in Hturn as (Hin & evs & Htr & Hturn).
      apply IH in Hrest as (Hin' & evs' & Htr' & Hrun).
      split; [congruence|]. exists (evs ++ evs').
      split; [by rewrite Htr', Htr, app_assoc|].
      eapply loop_next; [done|]. by rewrite <- Htr.
    + apply upload_member_turn in Hturn as (Hin & evs & Htr & Hturn).
      split; [done|]. exists evs. split; [done|]. by apply loop_stopped.
Qed.

(** *** Facts about one turn *)

(** Split membership in an explicit list into its cases. *)
Local Ltac in_cases H :=
  repeat first
    [ apply elem_of_nil in H; contradiction
    | apply elem_of_cons in H as [H|H] ];
  try (unfold report in H; case_bool_decide);
  simplify_eq.

Lemma url_distinct token : del_url token ≠ up_url token.
Proof. unfold del_url, up_url. simpl. discriminate. Qed.

Lemma report_not_post projmemid status_code req reply :
  report filename projmemid status_code ≠ EvPost req reply.
Proof. unfold report. by case_bool_decide. Qed.

(** Every request of a turn is the delete or the upload for its member. *)
Lemma turn_requests projmemid t evs r req reply :
  turn projmemid t evs r → EvPost req reply ∈ evs →
  is_Some (project_data !! projmemid)
  ∧ (req = delete_request mastertoken projmemid filename
     ∨ ∃ r0, dict_get projmemid loaded_data = Some r0
             ∧ req = upload_of mastertoken filename description tags projmemid r0).
Proof.
  intros Hturn Hin. destruct Hturn as [Hmd|md dels e Hmd Hdel|md dels ups r Hmd Hdel Hup].
  - apply list_elem_of_singleton in Hin. done.
  - split; [eauto|]. inversion Hdel; subst; in_cases Hin; auto.
  - split; [eauto|]. apply elem_of_app in Hin as [Hin|Hin].
    + inversion Hdel; subst; in_cases Hin; auto.
    + inversion Hup; subst; in_cases Hin; eauto.
Qed.

Lemma turn_skip projmemid t evs r :
  turn projmemid t evs r → project_data !! projmemid = None →
  evs = [EvLog INFO (msg_skipping projmemid)] ∧ r = Ok tt.
Proof. intros Hturn Hmd. destruct Hturn; simplify_eq; done. Qed.

(** Without a file of that name among the member's own, no delete request. *)
Lemma turn_no_delete projmemid t evs r md req reply :
  turn projmemid t evs r → project_data !! projmemid = Some md →
  ¬ owns md filename → EvPost req reply ∈ evs →
  req_url req ≠ del_url mastertoken.
Proof.
  intros Hturn Hmd Hown Hin.
  destruct Hturn as [?|md' dels e Hmd' Hdel|md' dels ups r Hmd' Hdel Hup];
    simplify_eq.
  - inversion Hdel; subst; done.
  - apply elem_of_app in Hin as [Hin|Hin].
    + inversion Hdel; subst; [in_cases Hin | done].
    + pose proof (url_distinct mastertoken).
      inversion Hup; subst; in_cases Hin; simpl; congruence.
Qed.

(** With such a file, the turn opens with the log line and the delete
    request, and any upload request comes later. *)
Lemma turn_delete_first projmemid t evs r md :
  turn projmemid t evs r → project_data !! projmemid = Some md →
  owns md filename →
  ∃ reply rest,
    evs = EvLog INFO (msg_deleting filename projmemid)
          :: EvPost (delete_request mastertoken projmemid filename) reply :: rest.
Proof.
  intros Hturn Hmd Hown.
  destruct Hturn as [?|md' dels e Hmd' Hdel|md' dels ups r Hmd' Hdel Hup];
    simplify_eq; inversion Hdel; subst; try done; simpl; eauto.
Qed.

(** An answered upload is followed at once by its report, which ends the
    turn without an exception. *)
Lemma turn_report projmemid t evs r i req status_code :
  turn projmemid t evs r →
  evs !! i = Some (EvPost req (Ok status_code)) →
  req_url req = up_url mastertoken →
  (∃ r0, dict_get projmemid loaded_data = Some r0
         ∧ req = upload_of mastertoken filename description tags projmemid r0)
  ∧ evs !! S i = Some (report filename projmemid status_code)
  ∧ length evs = S (S i)
  ∧ r = Ok tt.
Proof.
  pose proof (url_distinct mastertoken) as Hurl.
  intros Hturn Hi Hup'.
  destruct Hturn as [?|md' dels e Hmd' Hdel|md' dels ups r Hmd' Hdel Hup].
  - destruct i as [|[|i]]; simplify_eq.
  - inversion Hdel; subst. destruct i as [|[|i]]; simplify_eq.
  - inversion Hdel; subst; inversion Hup; subst; simpl in *;
      repeat (destruct i as [|i]; simpl in *; simplify_eq; try congruence);
      try (exfalso; eapply report_not_post; eassumption);
      eauto 10.
Qed.

(** A turn makes at most one upload request. *)
Lemma turn_one_upload projmemid t evs r i j req req' reply reply' :
  turn projmemid t evs r →
  evs !! i = Some (EvPost req reply) → req_url req = up_url mastertoken →
  evs !! j = Some (EvPost req' reply') → req_url req' = up_url mastertoken →
  i = j.
Proof.
  pose proof (url_distinct mastertoken) as Hurl.
  intros Hturn Hi Hu Hj Hu'.
  destruct Hturn as [?|md' dels e Hmd' Hdel|md' dels ups r Hmd' Hdel Hup].
  - destruct i as [|[|i]]; simplify_eq.
  - inversion Hdel; subst.
    destruct i as [|[|i]]; simpl in *; simplify_eq; simpl in *; congruence.
  - inversion Hdel; subst; inversion Hup; subst; simpl in *;
      repeat (destruct i as [|i]; simpl in *; simplify_eq; try congruence);
      try (exfalso; eapply report_not_post; eassumption);
      repeat (destruct j as [|j]; simpl in *; simplify_eq; try congruence);
      try (exfalso; eapply report_not_post; eassumption).
Qed.

Lemma request_for_delete projmemid projmemid' :
  request_for projmemid (delete_request mastertoken projmemid' filename) →
  projmemid = projmemid'.
Proof. unfold request_for. simpl. intros Hin. in_cases Hin. done. Qed.

Lemma request_for_upload projmemid projmemid' r0 :
  request_for projmemid
    (upload_of mastertoken filename description tags projmemid' r0) →
  projmemid = projmemid'.
Proof. unfold request_for. simpl. intros Hin. in_cases Hin. done. Qed.

(** *** Facts about the whole loop *)

(** A property of event lists that holds of the empty list, of every turn,
    and of a concatenation when it holds of both parts, holds of the loop. *)
Lemma loop_run_closed (P : list event → Prop) keys :
  P [] →
  (∀ a b, P a → P b → P (a ++ b)) →
  (∀ projmemid t evs r, projmemid ∈ keys → turn projmemid t evs r → P evs) →
  ∀ t evs r, run keys t evs r → P evs.
Proof.
  intros Hnil Happ Hturn t evs r Hrun.
  induction Hrun as [t|projmemid keys t evs e Ht|projmemid keys t evs evs' r Ht Hrun IH].
  - done.
  - eapply Hturn; [left | done].
  - apply Happ.
    + eapply Hturn; [left | done].
    + apply IH. intros id t' evs0 r0 Hin. apply Hturn. by right.
Qed.

Lemma loop_run_requests keys t evs r req reply :
  run keys t evs r → EvPost req reply ∈ evs →
  ∃ projmemid, projmemid ∈ keys
    ∧ is_Some (project_data !! projmemid)
    ∧ (req = delete_request mastertoken projmemid filename
       ∨ ∃ r0, dict_get projmemid loaded_data = Some r0
               ∧ req = upload_of mastertoken filename description tags projmemid r0).
Proof.
  intros Hrun. revert req reply.
  apply (loop_run_closed (fun evs => ∀ req reply, EvPost req reply ∈ evs →
    ∃ projmemid, projmemid ∈ keys ∧ is_Some (project_data !! projmemid)
      ∧ (req = delete_request mastertoken projmemid filename
         ∨ ∃ r0, dict_get projmemid loaded_data = Some r0
            ∧ req = upload_of mastertoken filename description tags projmemid r0))
    keys) with (t := t) (r := r); [| | |done].
  - by intros req reply ?%elem_of_nil.
  - intros a b Ha Hb req reply [?|?]%elem_of_app; eauto.
  - intros id t' evs' r' Hin Hturn req reply Hev.
    exists id. split; [done|]. by eapply turn_requests.
Qed.

Lemma loop_run_no_delete keys t evs r projmemid md req reply :
  run keys t evs r →
  project_data !! projmemid = Some md → ¬ owns md filename →
  EvPost req reply ∈ evs → req_url req = del_url mastertoken →
  ¬ request_for projmemid req.
Proof.
  intros Hrun Hmd Hown. revert req reply.
  apply (loop_run_closed (fun evs => ∀ req reply, EvPost req reply ∈ evs →
    req_url req = del_url mastertoken → ¬ request_for projmemid req)
    keys) with (t := t) (r := r); [| | |done].
  - by intros req reply ?%elem_of_nil.
  - intros a b Ha Hb req reply [?|?]%elem_of_app; eauto.
  - intros id t' evs' r' Hin Hturn req reply Hev Hurl Hfor.
    destruct (turn_requests _ _ _ _ _ _ Hturn Hev) as [_ [->|(r0 & _ & ->)]].
    + apply request_for_delete in Hfor as ->.
      by eapply turn_no_delete.
    + simpl in Hurl. by apply eq_sym, url_distinct in Hurl.
Qed.

Lemma loop_run_delete_first keys t evs r projmemid md i req reply :
  run keys t evs r →
  project_data !! projmemid = Some md → owns md filename →
  evs !! i = Some (EvPost req reply) → req_url req = up_url mastertoken →
  request_for projmemid req →
  ∃ j reply', j < i
    ∧ evs !! j = Some (EvPost (delete_request mastertoken projmemid filename) reply').
Proof.
  intros Hrun Hmd Hown. revert i req reply.
  apply (loop_run_closed (fun evs => ∀ i req reply,
    evs !! i = Some (EvPost req reply) → req_url req = up_url mastertoken →
    request_for projmemid req →
    ∃ j reply', j < i
      ∧ evs !! j = Some (EvPost (delete_request mastertoken projmemid filename) reply'))
    keys) with (t := t) (r := r); [| | |done].
  - intros i req reply Hi. by rewrite lookup_nil in Hi.
  - intros a b Ha Hb i req reply [Hi|[Hlen Hi]]%lookup_app_Some Hurl Hfor.
    + destruct (Ha _ _ _ Hi Hurl Hfor) as (j & reply' & Hj & Hdel).
      exists j, reply'. split; [done|]. by apply lookup_app_l_Some.
    + destruct (Hb _ _ _ Hi Hurl Hfor) as (j & reply' & Hj & Hdel).
      exists (length a + j), reply'. split; [lia|].
      rewrite lookup_app_r by lia. by replace (length a + j - length a) with j by lia.
  - intros id t' evs' r' Hin Hturn i req reply Hi Hurl Hfor.
    assert (Hev : EvPost req reply ∈ evs') by (by eapply list_elem_of_lookup_2).
    destruct (turn_requests _ _ _ _ _ _ Hturn Hev) as [_ [->|(r0 & _ & ->)]].
    + simpl in Hurl. by apply url_distinct in Hurl.
    + apply request_for_upload in Hfor as ->.
      destruct (turn_delete_first _ _ _ _ _ Hturn Hmd Hown) as (reply' & rest & ->).
      destruct i as [|[|i]]; simpl in Hi; simplify_eq.
      exists 1, reply'. split; [lia | done].
Qed.

Lemma loop_run_report keys t evs r i req status_code :
  run keys t evs r →
  evs !! i = Some (EvPost req (Ok status_code)) →
  req_url req = up_url mastertoken →
  ∃ projmemid r0,
    dict_get projmemid loaded_data = Some r0
    ∧ req = upload_of mastertoken filename description tags projmemid r0
    ∧ evs !! S i = Some (report filename projmemid status_code).
Proof.
  intros Hrun. revert i req status_code.
  apply (loop_run_closed (fun evs => ∀ i req status_code,
    evs !! i = Some (EvPost req (Ok status_code)) →
    req_url req = up_url mastertoken →
    ∃ projmemid r0,
      dict_get projmemid loaded_data = Some r0
      ∧ req = upload_of mastertoken filename description tags projmemid r0
      ∧ evs !! S i = Some (report filename projmemid status_code))
    keys) with (t := t) (r := r); [| | |done].
  - intros i req c Hi. by rewrite lookup_nil in Hi.
  - intros a b Ha Hb i req c [Hi|[Hlen Hi]]%lookup_app_Some Hurl.
    + destruct (Ha _ _ _ Hi Hurl) as (id & r0 & Hr0 & -> & Hrep).
      exists id, r0. split_and!; [done | done |]. by apply lookup_app_l_Some.
    + destruct (Hb _ _ _ Hi Hurl) as (id & r0 & Hr0 & -> & Hrep).
      exists id, r0. split_and!; [done | done |].
      rewrite lookup_app_r by lia.
      by replace (S i - length a) with (S (i - length a)) by lia.
  - intros id t' evs' r' Hin Hturn i req c Hi Hurl.
    destruct (turn_report _ _ _ _ _ _ _ Hturn Hi Hurl)
      as ((r0 & Hr0 & ->) & Hrep & _).
    exists id, r0. done.
Qed.

(** In a loop that ends normally every key had its turn, and the turn
    ended normally. *)
Lemma loop_run_ok_turn keys t evs projmemid :
  run keys t evs (Ok tt) → projmemid ∈ keys →
  ∃ t' pre chunk post,
    turn projmemid t' chunk (Ok tt) ∧ evs = pre ++ chunk ++ post.
Proof.
  intros Hrun. remember (Ok tt) as r eqn:Hr.
  induction Hrun as [t|id keys t evs e Ht|id keys t evs evs' r Ht Hrun IH];
    intros Hin.
  - by apply elem_of_nil in Hin.
  - done.
  - apply elem_of_cons in Hin as [->|Hin].
    + exists t, [], evs, evs'. by subst.
    + destruct (IH Hr Hin) as (t' & pre & chunk & post & Hturn & ->).
      exists t', (evs ++ pre), chunk, post. split; [done|].
      by rewrite <- app_assoc.
Qed.

(** When the remote service answers every request and the dataset has a
    row for the key, a turn does not raise. *)
Lemma turn_no_raise projmemid t evs e :
  (∀ t req, ∃ status_code, remote t req = Ok status_code) →
  is_Some (dict_get projmemid loaded_data) →
  ¬ turn projmemid t evs (Raise e).
Proof.
  intros Hremote [r0 Hr0] Hturn.
  inversion Hturn as [|md dels e' Hmd Hdel|md dels ups r Hmd Hdel Hup]; subst.
  - inversion Hdel as [| |e'' Hown Hrem]; subst.
    destruct (Hremote (t ++ [EvLog INFO (msg_deleting filename projmemid)])
                (delete_request mastertoken projmemid filename)) as [c Hc].
    congruence.
  - inversion Hup as [Hnone|r1 e'' Hr1 Hrem|]; subst; [congruence|].
    destruct (Hremote ((t ++ dels) ++ [EvLog INFO (msg_uploading filename projmemid)])
                (upload_of mastertoken filename description tags projmemid r1)) as [c Hc].
    congruence.
Qed.

Lemma loop_run_no_raise keys t evs r :
  (∀ t req, ∃ status_code, remote t req = Ok status_code) →
  (∀ projmemid, projmemid ∈ keys → is_Some (dict_get projmemid loaded_data)) →
  run keys t evs r → r = Ok tt.
Proof.
  intros Hremote Hkeys Hrun.
  induction Hrun as [t|id keys t evs e Ht|id keys t evs evs' r Ht Hrun IH].
  - done.
  - exfalso. eapply turn_no_raise; [done | | done]. apply Hkeys. left.
  - apply IH. intros id' Hin. apply Hkeys. by right.
Qed.

(** A turn that ends normally for a listed member made the upload request
    and had it answered. *)
Lemma turn_ok_upload projmemid t evs :
  turn projmemid t evs (Ok tt) → is_Some (project_data !! projmemid) →
  ∃ r0 status_code,
    dict_get projmemid loaded_data = Some r0
    ∧ EvPost (upload_of mastertoken filename description tags projmemid r0)
        (Ok status_code) ∈ evs.
Proof.
  intros Hturn [md Hmd].
  inversion Hturn as [|md' dels e' Hmd' Hdel|md' dels ups r Hmd' Hdel Hup]; subst.
  - congruence.
  - inversion Hup as [| |r0 c Hr0 Hrem]; subst.
    exists r0, c. split; [done|]. apply elem_of_app. right. right. left.
Qed.

Lemma loop_run_one_upload keys t evs r i j req req' reply reply' projmemid :
  NoDup keys → run keys t evs r →
  evs !! i = Some (EvPost req reply) → req_url req = up_url mastertoken →
  request_for projmemid req →
  evs !! j = Some (EvPost req' reply') → req_url req' = up_url mastertoken →
  request_for projmemid req' →
  i = j.
Proof.
  intros Hnd Hrun. revert i j req req' reply reply'.
  induction Hrun as [t|id keys t evs e Ht|id keys t evs evs' r Ht Hrun IH];
    intros i j req req' reply reply' Hi Hu Hfor Hj Hu' Hfor'.
  - by rewrite lookup_nil in Hi.
  - by eapply turn_one_upload.
  - apply NoDup_cons in Hnd as [Hid Hnd].
    assert (Hhere : ∀ k q a, evs !! k = Some (EvPost q a) →
              req_url q = up_url mastertoken → request_for projmemid q →
              projmemid = id).
    { intros k q a Hk Hq Hq'.
      destruct (turn_requests _ _ _ _ q a Ht) as [_ [->|(r0 & _ & ->)]];
        [by eapply list_elem_of_lookup_2 | |].
      - simpl in Hq. by apply url_distinct in Hq.
      - by apply request_for_upload in Hq'. }
    assert (Hlater : ∀ k q a, evs' !! k = Some (EvPost q a) →
              req_url q = up_url mastertoken → request_for projmemid q →
              projmemid ∈ keys).
    { intros k q a Hk Hq Hq'.
      destruct (loop_run_requests _ _ _ _ q a Hrun) as (id' & Hin & _ & [->|(r0 & _ & ->)]);
        [by eapply list_elem_of_lookup_2 | |].
      - simpl in Hq. by apply url_distinct in Hq.
      - by apply request_for_upload in Hq' as ->. }
    apply lookup_app_Some in Hi as [Hi|[Hlen Hi]];
      apply lookup_app_Some in Hj as [Hj|[Hlen' Hj]].
    + by eapply turn_one_upload.
    + exfalso. apply Hid. rewrite <- (Hhere _ _ _ Hi Hu Hfor). by eapply Hlater.
    + exfalso. apply Hid. rewrite <- (Hhere _ _ _ Hj Hu' Hfor'). by eapply Hlater.
    + assert (i - length evs = j - length evs) by (by eapply IH). lia.
Qed.

(** *** Whole runs *)

Variable surveydata : string.

Local Abbreviation upload :=
  (surv_upload mastertoken surveydata filename description tags).

(** A run whose load succeeded and whose listing was fetched is the fetch
    followed by the loop over the keys of the dataset. *)
Lemma surv_upload_run w w1 r w' :
  load_survey_data surveydata w = (Ok loaded_data, w1) →
  fetch_project_data mastertoken = Ok project_data →
  upload w = (r, w') →
  stdin w' = stdin w1
  ∧ ∃ evs, trace w' = trace w1 ++ EvProject mastertoken :: evs
      ∧ run (dict_keys loaded_data) (trace w1 ++ [EvProject mastertoken]) evs r.
Proof.
  intros Hload Hfetch. unfold surv_upload.
  rewrite (bind_ok _ _ _ _ _ Hload). unfold OHProject, emit, lift, bind.
  rewrite Hfetch. simpl. intros Hloop.
  apply for_each_loop_run in Hloop as (Hin & evs & Htr & Hrun). simpl in *.
  split; [done|]. exists evs. split; [|done].
  rewrite Htr, <- app_assoc. done.
Qed.

(** C6.  An identifier of the loaded dataset that the remote listing does
    not have: its turn of the loop logs the skipping line and nothing else,
    and ends normally, so that the loop goes on with the identifiers after
    it; in the whole run no request, delete or upload, is made for it, and
    a run that ends normally has logged the line. *)
Theorem absent_member_skipped projmemid w w1 r w' :
  load_survey_data surveydata w = (Ok loaded_data, w1) →
  fetch_project_data mastertoken = Ok project_data →
  upload w = (r, w') →
  projmemid ∈ dict_keys loaded_data →
  project_data !! projmemid = None →
  (∀ w0, body projmemid w0 =
     (Ok tt, {| stdin := stdin w0;
                trace := trace w0 ++
                  [EvLog INFO ("Skipping '" +:+ projmemid +:+ "', invalid member ID.")] |}))
  ∧ (∀ pre post w0,
       for_each body (pre ++ projmemid :: post) w0
       = (for_each body pre ;;
          logging_info ("Skipping '" +:+ projmemid +:+ "', invalid member ID.") ;;
          for_each body post) w0)
  ∧ ∃ evs, trace w' = trace w1 ++ EvProject mastertoken :: evs
      ∧ (∀ req reply, EvPost req reply ∈ evs → ¬ request_for projmemid req)
      ∧ (r = Ok tt →
         EvLog INFO ("Skipping '" +:+ projmemid +:+ "', invalid member ID.") ∈ evs).
Proof.
  intros Hload Hfetch Hrun Hkey Hmd.
  assert (Hbody : ∀ w0, body projmemid w0 =
     (Ok tt, {| stdin := stdin w0;
                trace := trace w0 ++ [EvLog INFO (msg_skipping projmemid)] |})).
  { intros w0. unfold upload_member. by rewrite Hmd. }
  split_and!.
  - done.
  - intros pre post w0. rewrite for_each_app. unfold bind.
    destruct (for_each body pre w0) as [[[]|e] w2]; [|done].
    simpl. unfold bind. by rewrite Hbody.
  - destruct (surv_upload_run _ _ _ _ Hload Hfetch Hrun) as (_ & evs & Htr & Hloop).
    exists evs. split_and!; [done | |].
    + intros req reply Hin Hfor.
      destruct (loop_run_requests _ _ _ _ _ _ Hloop Hin)
        as (id & _ & [md Hid] & [->|(r0 & _ & ->)]).
      * apply request_for_delete in Hfor as ->. congruence.
      * apply request_for_upload in Hfor as ->. congruence.
    + intros ->.
      destruct (loop_run_ok_turn _ _ _ _ Hloop Hkey)
        as (t' & pre & chunk & post & Hturn & ->).
      destruct (turn_skip _ _ _ _ Hturn Hmd) as [-> _].
      apply elem_of_app. right. left.
Qed.

(** C3.  A participant of the remote listing.  The basenames kept in
    [curr_project_data] are those of the listing entries whose source is
    not among the participant's shared sources, and each is the key of such
    an entry.  When the configured
    filename is not one of them, the run makes no delete request for the
    participant.  When it is, every upload request for the participant is
    preceded in the trace by the delete request for (participant,
    filename), and a run that ends normally has made that delete request
    if the participant is in the dataset. *)
Theorem delete_precedes_upload projmemid md w w1 r w' :
  load_survey_data surveydata w = (Ok loaded_data, w1) →
  fetch_project_data mastertoken = Ok project_data →
  upload w = (r, w') →
  project_data !! projmemid = Some md →
  (∀ name, name ∈ dict_keys (curr_project_data md)
           ↔ ∃ f, f ∈ data md ∧ (source f ∉ sources_shared md) ∧ basename f = name)
  ∧ (∀ name f, dict_get name (curr_project_data md) = Some f →
       f ∈ data md ∧ (source f ∉ sources_shared md) ∧ basename f = name)
  ∧ ∃ evs, trace w' = trace w1 ++ EvProject mastertoken :: evs
      ∧ (filename ∉ dict_keys (curr_project_data md) →
         ∀ req reply, EvPost req reply ∈ evs →
           req_url req = del_url mastertoken → ¬ request_for projmemid req)
      ∧ (filename ∈ dict_keys (curr_project_data md) →
         ∀ i req reply, evs !! i = Some (EvPost req reply) →
           req_url req = up_url mastertoken → request_for projmemid req →
           ∃ j reply', j < i
             ∧ evs !! j = Some (EvPost {| req_url := del_url mastertoken;
                                          req_files := None;
                                          req_data := [("project_member_id", projmemid);
                                                       ("file_basename", filename)] |}
                                  reply'))
      ∧ (filename ∈ dict_keys (curr_project_data md) →
         projmemid ∈ dict_keys loaded_data → r = Ok tt →
         ∃ i j r0 reply reply', i < j
           ∧ evs !! i = Some (EvPost (delete_request mastertoken projmemid filename) reply)
           ∧ evs !! j = Some (EvPost
               (upload_of mastertoken filename description tags projmemid r0) reply')).
Proof.
  intros Hload Hfetch Hrun Hmd. split_and!.
  - intros name. apply curr_project_data_owns.
  - apply curr_project_data_entry.
  - destruct (surv_upload_run _ _ _ _ Hload Hfetch Hrun) as (_ & evs & Htr & Hloop).
    exists evs. split_and!; [done | | |].
    + rewrite curr_project_data_owns. intros Hown req reply Hin Hurl.
      by eapply loop_run_no_delete.
    + rewrite curr_project_data_owns. intros Hown i req reply Hi Hurl Hfor.
      by eapply loop_run_delete_first.
    + rewrite curr_project_data_owns. intros Hown Hkey ->.
      destruct (loop_run_ok_turn _ _ _ _ Hloop Hkey)
        as (t' & pre & chunk & post & Hturn & ->).
      destruct (turn_ok_upload _ _ _ Hturn) as (r0 & c & Hr0 & Hup); [eauto|].
      apply list_elem_of_lookup in Hup as [k Hk].
      assert (Hup' : (pre ++ chunk ++ post) !! (length pre + k)
                = Some (EvPost (upload_of mastertoken filename description tags
                                  projmemid r0) (Ok c))).
      { rewrite lookup_app_r by lia.
        replace (length pre + k - length pre) with k by lia.
        by apply lookup_app_l_Some. }
      destruct (loop_run_delete_first _ _ _ _ _ _ _ _ _ Hloop Hmd Hown Hup')
        as (j & reply' & Hj & Hdel); [done | unfold request_for; simpl; left |].
      exists j, (length pre + k), r0, reply', (Ok c). done.
Qed.

(** C7.  In a run, an upload request that the remote service answered is
    followed at once in the trace by the log line for its status code: an
    informational line when the code is 201, a warning naming the filename
    and the participant otherwise.  No participant has two upload requests
    (nothing is retried).  And a status code never raises: when the service
    answers every request, whatever the codes, the run ends normally and
    every identifier of the dataset that the listing has got its upload. *)
Theorem upload_status_reported w w1 r w' :
  load_survey_data surveydata w = (Ok loaded_data, w1) →
  fetch_project_data mastertoken = Ok project_data →
  upload w = (r, w') →
  ∃ evs, trace w' = trace w1 ++ EvProject mastertoken :: evs
    ∧ (∀ i req status_code,
         evs !! i = Some (EvPost req (Ok status_code)) →
         req_url req = up_url mastertoken →
         ∃ projmemid, request_for projmemid req
           ∧ evs !! S i = Some
               (if bool_decide (status_code = 201%Z)
                then EvLog INFO ("Upload of " +:+ filename +:+ " for "
                                   +:+ projmemid +:+ " complete.")
                else EvLog WARNING ("Upload error of " +:+ filename +:+ " for "
                                      +:+ projmemid +:+ "!")))
    ∧ (∀ i j req req' reply reply' projmemid,
         evs !! i = Some (EvPost req reply) → req_url req = up_url mastertoken →
         request_for projmemid req →
         evs !! j = Some (EvPost req' reply') → req_url req' = up_url mastertoken →
         request_for projmemid req' →
         i = j)
    ∧ ((∀ t req, ∃ status_code, remote t req = Ok status_code) →
       r = Ok tt
       ∧ ∀ projmemid, projmemid ∈ dict_keys loaded_data →
           is_Some (project_data !! projmemid) →
           ∃ r0 status_code,
             EvPost (upload_of mastertoken filename description tags projmemid r0)
               (Ok status_code) ∈ evs).
Proof.
  intros Hload Hfetch Hrun.
  destruct (surv_upload_run _ _ _ _ Hload Hfetch Hrun) as (_ & evs & Htr & Hloop).
  exists evs. split_and!; [done | | |].
  - intros i req c Hi Hurl.
    destruct (loop_run_report _ _ _ _ _ _ _ Hloop Hi Hurl) as (id & r0 & _ & -> & Hrep).
    exists id. split; [unfold request_for; simpl; left | done].
  - intros i j req req' reply reply' id. eapply loop_run_one_upload; [|done].
    by eapply load_survey_data_NoDup.
  - intros Hremote.
    assert (r = Ok tt) as ->.
    { eapply loop_run_no_raise; [done | | done].
      intros id Hin. by apply dict_keys_get. }
    split; [done|]. intros id Hkey Hmd.
    destruct (loop_run_ok_turn _ _ _ _ Hloop Hkey)
      as (t' & pre & chunk & post & Hturn & ->).
    destruct (turn_ok_upload _ _ _ Hturn Hmd) as (r0 & c & _ & Hup).
    exists r0, c. apply elem_of_app. right. apply elem_of_app. by left.
Qed.


(** *** Further facts about runs *)

(** A request that raises ends its turn there, with that exception. *)
Lemma turn_raising_post projmemid t evs r i req e :
  turn projmemid t evs r →
  evs !! i = Some (EvPost req (Raise e)) →
  r = Raise e ∧ length evs = S i.
Proof.
  intros Hturn Hi.
  destruct Hturn as [?|md' dels e' Hmd' Hdel|md' dels ups r Hmd' Hdel Hup].
  - destruct i as [|[|i]]; simplify_eq.
  - inversion Hdel; subst. destruct i as [|[|i]]; simpl in *; simplify_eq. done.
  - inversion Hdel; subst; inversion Hup; subst; simpl in *;
      repeat (destruct i as [|i]; simpl in *; simplify_eq);
      try (exfalso; eapply report_not_post; eassumption); done.
Qed.

(** A turn for a key of the dataset raises only what a request raised, and
    that request is its last event. *)
Lemma turn_raise_cause projmemid t evs e :
  turn projmemid t evs (Raise e) →
  is_Some (dict_get projmemid loaded_data) →
  ∃ req, last evs = Some (EvPost req (Raise e)).
Proof.
  intros Hturn [r0 Hr0].
  inversion Hturn as [|md dels e' Hmd Hdel|md dels ups r Hmd Hdel Hup]; subst.
  - inversion Hdel; subst. eauto.
  - inversion Hup; subst; [congruence|].
    rewrite last_app. simpl. eauto.
Qed.

Lemma loop_run_raising_post keys t evs r i req e :
  run keys t evs r →
  evs !! i = Some (EvPost req (Raise e)) →
  r = Raise e ∧ length evs = S i.
Proof.
  intros Hrun. revert i.
  induction Hrun as [t|id keys t evs e' Ht|id keys t evs evs' r Ht Hrun IH];
    intros i Hi.
  - by rewrite lookup_nil in Hi.
  - by eapply turn_raising_post.
  - apply lookup_app_Some in Hi as [Hi|[Hlen Hi]].
    + by destruct (turn_raising_post _ _ _ _ _ _ _ Ht Hi).
    + destruct (IH _ Hi) as [-> Hlen']. split; [done|].
      rewrite length_app. lia.
Qed.

Lemma loop_run_raise_cause keys t evs e :
  (∀ projmemid, projmemid ∈ keys → is_Some (dict_get projmemid loaded_data)) →
  run keys t evs (Raise e) →
  ∃ req, last evs = Some (EvPost req (Raise e)).
Proof.
  intros Hkeys Hrun. remember (Raise e) as r eqn:Hr.
  induction Hrun as [t|id keys t evs e' Ht|id keys t evs evs' r Ht Hrun IH].
  - done.
  - injection Hr as ->. eapply turn_raise_cause; [done|]. apply Hkeys. left.
  - destruct IH as [req Hlast]; [intros; apply Hkeys; by right | done |].
    exists req. rewrite last_app, Hlast. done.
Qed.

(** No exception of the remote service is caught, and nothing else makes
    the loop raise: a request that raises is the last event of the run,
    whose result is that exception; and a run that raises after the listing
    was fetched ends on a request that raised the same exception. *)
Theorem service_exception_ends_run w w1 r w' :
  load_survey_data surveydata w = (Ok loaded_data, w1) →
  fetch_project_data mastertoken = Ok project_data →
  upload w = (r, w') →
  ∃ evs, trace w' = trace w1 ++ EvProject mastertoken :: evs
    ∧ (∀ i req e, evs !! i = Some (EvPost req (Raise e)) →
         r = Raise e ∧ length evs = S i)
    ∧ (∀ e, r = Raise e → ∃ req, last evs = Some (EvPost req (Raise e))).
Proof.
  intros Hload Hfetch Hrun.
  destruct (surv_upload_run _ _ _ _ Hload Hfetch Hrun) as (_ & evs & Htr & Hloop).
  exists evs. split_and!; [done | |].
  - intros i req e. by eapply loop_run_raising_post.
  - intros e ->. eapply loop_run_raise_cause; [|done].
    intros id Hin. by apply dict_keys_get.
Qed.

Lemma announcement_delete projmemid :
  announcement mastertoken filename
    (delete_request mastertoken projmemid filename) projmemid
  = EvLog INFO (msg_deleting filename projmemid).
Proof. unfold announcement. by rewrite decide_True. Qed.

Lemma announcement_upload projmemid r0 :
  announcement mastertoken filename
    (upload_of mastertoken filename description tags projmemid r0) projmemid
  = EvLog INFO (msg_uploading filename projmemid).
Proof.
  unfold announcement. rewrite decide_False; [done|].
  simpl. intros Heq. by apply eq_sym, url_distinct in Heq.
Qed.

Lemma turn_announced projmemid t evs r i req reply :
  turn projmemid t evs r →
  evs !! i = Some (EvPost req reply) →
  ∃ j, i = S j
    ∧ evs !! j = Some (announcement mastertoken filename req projmemid)
    ∧ is_Some (project_data !! projmemid)
    ∧ ((req = delete_request mastertoken projmemid filename
        ∧ has_current project_data filename projmemid = true)
       ∨ ∃ r0, dict_get projmemid loaded_data = Some r0
           ∧ req = upload_of mastertoken filename description tags projmemid r0).
Proof.
  intros Hturn Hi.
  assert (Hcur : ∀ md, project_data !! projmemid = Some md → owns md filename →
            has_current project_data filename projmemid = true).
  { intros md Hmd Hown. unfold has_current. rewrite Hmd.
    apply bool_decide_eq_true. by apply curr_project_data_owns. }
  destruct Hturn as [?|md' dels e' Hmd' Hdel|md' dels ups r Hmd' Hdel Hup].
  - destruct i as [|[|i]]; simplify_eq.
  - inversion Hdel; subst. destruct i as [|[|i]]; simpl in *; simplify_eq.
    exists 0. rewrite announcement_delete. split_and!; eauto.
  - inversion Hdel; subst; inversion Hup; subst; simpl in *;
      repeat (destruct i as [|i]; simpl in *; simplify_eq);
      try (exfalso; eapply report_not_post; eassumption);
      eexists; rewrite ?announcement_delete, ?announcement_upload;
      (split_and!; [reflexivity | reflexivity | eauto | eauto 10]).
Qed.

(** Every request of a run is made for an identifier that is both in the
    dataset and in the listing; it is the delete request for a member who
    has a file of that name, or the upload request carrying the member's
    row; and the event right before it is the line that announces it. *)
Theorem requests_announced_and_listed w w1 r w' :
  load_survey_data surveydata w = (Ok loaded_data, w1) →
  fetch_project_data mastertoken = Ok project_data →
  upload w = (r, w') →
  ∃ evs, trace w' = trace w1 ++ EvProject mastertoken :: evs
    ∧ ∀ i req reply, evs !! i = Some (EvPost req reply) →
        ∃ j projmemid,
          i = S j
          ∧ evs !! j = Some (announcement mastertoken filename req projmemid)
          ∧ projmemid ∈ dict_keys loaded_data
          ∧ is_Some (project_data !! projmemid)
          ∧ ((req = delete_request mastertoken projmemid filename
              ∧ has_current project_data filename projmemid = true)
             ∨ ∃ r0, dict_get projmemid loaded_data = Some r0
                 ∧ req = upload_of mastertoken filename description tags
                           projmemid r0).
Proof.
  intros Hload Hfetch Hrun.
  destruct (surv_upload_run _ _ _ _ Hload Hfetch Hrun) as (_ & evs & Htr & Hloop).
  exists evs. split; [done|].
  apply (loop_run_closed (fun evs => ∀ i req reply,
    evs !! i = Some (EvPost req reply) →
    ∃ j projmemid,
      i = S j
      ∧ evs !! j = Some (announcement mastertoken filename req projmemid)
      ∧ projmemid ∈ dict_keys loaded_data
      ∧ is_Some (project_data !! projmemid)
      ∧ ((req = delete_request mastertoken projmemid filename
          ∧ has_current project_data filename projmemid = true)
         ∨ ∃ r0, dict_get projmemid loaded_data = Some r0
             ∧ req = upload_of mastertoken filename description tags projmemid r0))
    (dict_keys loaded_data)) with (t := trace w1 ++ [EvProject mastertoken]) (r := r);
    [| | |done].
  - intros i req reply Hi. by rewrite lookup_nil in Hi.
  - intros a b Ha Hb i req reply [Hi|[Hlen Hi]]%lookup_app_Some.
    + destruct (Ha _ _ _ Hi) as (j & id & -> & Hj & Hk & Hm & Hreq).
      exists j, id. split_and!; try done. by apply lookup_app_l_Some.
    + destruct (Hb _ _ _ Hi) as (j & id & Hij & Hj & Hk & Hm & Hreq).
      exists (length a + j), id. split_and!; try done; [lia|].
      rewrite lookup_app_r by lia.
      by replace (length a + j - length a) with j by lia.
  - intros id t' evs' r' Hin Hturn i req reply Hi.
    destruct (turn_announced _ _ _ _ _ _ _ Hturn Hi) as (j & -> & Hj & Hmd & Hreq).
    exists j, id. done.
Qed.

(** *** Who was served *)

Lemma posted_ids_app url a b :
  posted_ids url (a ++ b) = posted_ids url a ++ posted_ids url b.
Proof. unfold posted_ids. apply omap_app. Qed.

Lemma posted_ids_log url l msg evs :
  posted_ids url (EvLog l msg :: evs) = posted_ids url evs.
Proof. done. Qed.

Lemma posted_ids_report url projmemid status_code evs :
  posted_ids url (report filename projmemid status_code :: evs) = posted_ids url evs.
Proof. unfold report. by case_bool_decide. Qed.

Lemma posted_ids_delete url projmemid reply evs :
  posted_ids url (EvPost (delete_request mastertoken projmemid filename) reply :: evs)
  = (if decide (del_url mastertoken = url) then [projmemid] else [])
    ++ posted_ids url evs.
Proof.
  unfold posted_ids. cbn [omap list_omap req_url delete_request].
  destruct (decide (del_url mastertoken = url)); [|done].
  cbn [req_data]. replace (dict_get "project_member_id"
    [("project_member_id", projmemid); ("file_basename", filename)])
    with (Some projmemid) by (unfold dict_get; by rewrite decide_True).
  done.
Qed.

Lemma posted_ids_upload url projmemid r0 reply evs :
  posted_ids url
    (EvPost (upload_of mastertoken filename description tags projmemid r0) reply :: evs)
  = (if decide (up_url mastertoken = url) then [projmemid] else [])
    ++ posted_ids url evs.
Proof.
  unfold posted_ids. cbn [omap list_omap req_url upload_of upload_request].
  destruct (decide (up_url mastertoken = url)); [|done].
  cbn [req_data]. replace (dict_get "project_member_id"
    [("project_member_id", projmemid);
     ("metadata", json_dumps (metadata tags description))])
    with (Some projmemid) by (unfold dict_get; by rewrite decide_True).
  done.
Qed.

(** A turn that ends normally made the upload request if the identifier is
    listed, and the delete request if it has a file of that name. *)
Lemma turn_posted_ids projmemid t evs :
  turn projmemid t evs (Ok tt) →
  posted_ids (up_url mastertoken) evs
  = (if listed project_data projmemid then [projmemid] else [])
  ∧ posted_ids (del_url mastertoken) evs
    = (if has_current project_data filename projmemid then [projmemid] else []).
Proof.
  pose proof (url_distinct mastertoken) as Hurl.
  assert (Hurl' : up_url mastertoken ≠ del_url mastertoken) by (intros ?; by apply Hurl).
  intros Hturn.
  inversion Hturn as [Hmd|md dels e' Hmd Hdel|md dels ups r Hmd Hdel Hup]; subst.
  - unfold listed, has_current. rewrite Hmd.
    rewrite bool_decide_eq_false_2 by (by intros [? ?]). done.
  - assert (Hl : listed project_data projmemid = true).
    { unfold listed. rewrite Hmd. apply bool_decide_eq_true. eauto. }
    rewrite Hl. unfold has_current. rewrite Hmd.
    inversion Hup as [| |r0 c Hr0 Hrem]; subst.
    inversion Hdel as [Hown|c' Hown Hrem'|]; subst.
    + rewrite bool_decide_eq_false_2 by (by rewrite curr_project_data_owns).
      cbn [app]. rewrite !posted_ids_log, !posted_ids_upload, !posted_ids_report.
      rewrite decide_True by reflexivity. rewrite decide_False by exact Hurl'.
      done.
    + rewrite bool_decide_eq_true_2 by (by rewrite curr_project_data_owns).
      cbn [app]. rewrite !posted_ids_log, !posted_ids_delete, !posted_ids_log,
        !posted_ids_upload, !posted_ids_report.
      rewrite !(decide_True (P := up_url mastertoken = up_url mastertoken)) by reflexivity.
      rewrite !(decide_True (P := del_url mastertoken = del_url mastertoken)) by reflexivity.
      rewrite !(decide_False (P := up_url mastertoken = del_url mastertoken)) by exact Hurl'.
      rewrite !(decide_False (P := del_url mastertoken = up_url mastertoken)) by exact Hurl.
      done.
Qed.

Lemma loop_run_posted_ids keys t evs :
  run keys t evs (Ok tt) →
  posted_ids (up_url mastertoken) evs
  = filter (fun projmemid => listed project_data projmemid = true) keys
  ∧ posted_ids (del_url mastertoken) evs
    = filter (fun projmemid => has_current project_data filename projmemid = true) keys.
Proof.
  intros Hrun. remember (Ok tt) as r eqn:Hr.
  induction Hrun as [t|id keys t evs e' Ht|id keys t evs evs' r Ht Hrun IH].
  - done.
  - done.
  - destruct (IH Hr) as [IHup IHdel].
    destruct (turn_posted_ids _ _ _ Ht) as [Hup Hdel].
    rewrite !posted_ids_app, !filter_cons, IHup, IHdel, Hup, Hdel.
    split.
    + destruct (listed project_data id); [by rewrite decide_True|].
      by rewrite decide_False.
    + destruct (has_current project_data filename id); [by rewrite decide_True|].
      by rewrite decide_False.
Qed.

(** In a run that ends normally, the upload requests are made for exactly
    the identifiers of the dataset that the listing has, one each, in the
    order of the dataset; and the delete requests for exactly those among
    them that have a file of the configured name, likewise. *)
Theorem normal_run_serves_listed_members w w1 w' :
  load_survey_data surveydata w = (Ok loaded_data, w1) →
  fetch_project_data mastertoken = Ok project_data →
  upload w = (Ok tt, w') →
  ∃ evs, trace w' = trace w1 ++ EvProject mastertoken :: evs
    ∧ posted_ids (up_url mastertoken) evs
      = filter (fun projmemid => listed project_data projmemid = true)
          (dict_keys loaded_data)
    ∧ posted_ids (del_url mastertoken) evs
      = filter (fun projmemid => has_current project_data filename projmemid = true)
          (dict_keys loaded_data).
Proof.
  intros Hload Hfetch Hrun.
  destruct (surv_upload_run _ _ _ _ Hload Hfetch Hrun) as (_ & evs & Htr & Hloop).
  exists evs. split; [done|]. by eapply loop_run_posted_ids.
Qed.

(** The events of the loop are log lines and requests. *)
Lemma loop_run_kinds keys t evs r :
  run keys t evs r → Forall (fun e => is_log_or_post e = true) evs.
Proof.
  apply (loop_run_closed (Forall (fun e => is_log_or_post e = true)) keys).
  - constructor.
  - intros a b Ha Hb. by apply Forall_app.
  - intros id t' evs' r' _ Hturn.
    destruct Hturn as [?|md dels e' Hmd Hdel|md dels ups r' Hmd Hdel Hup].
    + by apply Forall_singleton.
    + inversion Hdel; subst. by repeat constructor.
    + apply Forall_app. split.
      * inversion Hdel; subst; by repeat constructor.
      * inversion Hup; subst; repeat constructor.
        unfold report. by case_bool_decide.
Qed.

End Loop.

(** C5.  Whatever the loader does, it does before the first request to the
    remote service: the events it adds to the trace are prompts, none of
    them a network event; if it raises, [surv_upload] ends there with the
    same exception and the same trace, so no listing fetch, delete or
    upload was issued; and the trace at the end of the load is a prefix of
    the trace at the end of the run, so every request of the run comes
    after the dataset is complete. *)
Theorem load_precedes_network mastertoken surveydata filename description tags
    w rl w1 :
  load_survey_data surveydata w = (rl, w1) →
  (∃ evs, trace w1 = trace w ++ evs ∧ Forall (fun e => is_network e = false) evs)
  ∧ (∀ e, rl = Raise e →
       surv_upload mastertoken surveydata filename description tags w
       = (Raise e, w1))
  ∧ trace w1 `prefix_of`
      trace (surv_upload mastertoken surveydata filename description tags w).2.
Proof.
  intros Hload. split_and!.
  - by eapply load_survey_data_trace.
  - intros e ->. unfold surv_upload. by rewrite (bind_raise _ _ _ _ _ Hload).
  - unfold surv_upload. destruct rl as [ld|e].
    + rewrite (bind_ok _ _ _ _ _ Hload). unfold OHProject, emit, lift, bind.
      destruct (fetch_project_data mastertoken) as [pd|e]; simpl.
      * destruct (for_each _ _ _) as [r w'] eqn:Hloop.
        apply for_each_loop_run in Hloop as (_ & evs & Htr & _). simpl in *.
        rewrite Htr, <- app_assoc. by apply prefix_app_r.
      * by apply prefix_app_r.
    + by rewrite (bind_raise _ _ _ _ _ Hload).
Qed.

(** ** The shape of a run *)

Lemma scan_fieldnames_prompts fieldnames firstrow todo : ∀ w r w',
  scan_fieldnames fieldnames firstrow todo w = (r, w') →
  ∃ evs, trace w' = trace w ++ evs ∧ Forall (fun e => is_prompt e = true) evs.
Proof.
  induction todo as [|f todo IH]; intros w r w'; simpl.
  - intros [= <- <-]. exists []. by rewrite app_nil_r.
  - unfold getitem, re_match, input, lift, bind, ret, raise.
    destruct (dict_get (Some f) firstrow) as [[s| |]|]; simpl;
      try (intros [= <- <-]; exists []; by rewrite app_nil_r).
    destruct (re_match_RE_ID s); simpl; [|by apply IH].
    destruct (list_index f fieldnames); simpl;
      [|intros [= <- <-]; exists []; by rewrite app_nil_r].
    destruct (stdin w) as [|a answers]; simpl.
    + intros [= <- <-]. eexists. split; [done|]. by apply Forall_singleton.
    + destruct (affirmative a); simpl.
      * intros [= <- <-]. eexists. split; [done|]. by apply Forall_singleton.
      * intros Hrun. destruct (IH _ _ _ Hrun) as (evs & Htr & Hevs).
        simpl in Htr. rewrite <- app_assoc in Htr.
        eexists. split; [done|]. apply Forall_app. split; [|done].
        by apply Forall_singleton.
Qed.

Lemma load_survey_data_prompts surveydata w r w' :
  load_survey_data surveydata w = (r, w') →
  ∃ evs, trace w' = trace w ++ evs ∧ Forall (fun e => is_prompt e = true) evs.
Proof.
  intros Hload.
  assert (Hget : ∀ r1 w1, get_projmemid_fieldname surveydata w = (r1, w1) →
    ∃ evs, trace w1 = trace w ++ evs ∧ Forall (fun e => is_prompt e = true) evs).
  { intros r1 w1. unfold get_projmemid_fieldname, open, next_row.
    destruct (fs surveydata) as [text|]; unfold bind, ret, raise; simpl;
      [|intros [= <- <-]; exists []; by rewrite app_nil_r].
    destruct (reader_rows (csv_reader text)) as [|firstrow rows]; simpl;
      [intros [= <- <-]; exists []; by rewrite app_nil_r|].
    destruct (scan_fieldnames _ firstrow _ w) as [r2 w2] eqn:Hscan.
    apply scan_fieldnames_prompts in Hscan.
    destruct r2 as [[name|]|e]; unfold truthy;
      [destruct (bool_decide (name = "")); simpl| |]; by intros [= <- <-]. }
  destruct (load_survey_data_inv _ _ _ _ Hload)
    as [(e & _ & ->)|[(e & _ & Hg)|(text & id_fieldname & _ & _ & Hg & _)]].
  - exists []. by rewrite app_nil_r.
  - by eapply Hget.
  - by eapply Hget.
Qed.

(** What a run adds to the trace, whatever its inputs: first prompts only,
    from the loader; then, if the loader returned a dataset, the one fetch
    of the listing with the master token, followed by log lines and
    requests only, and by nothing when the fetch raises.  The operator's
    input is read by the loader alone. *)
Theorem surv_upload_trace_shape mastertoken surveydata filename description tags
    w r w' :
  surv_upload mastertoken surveydata filename description tags w = (r, w') →
  ∃ prompts rest,
    trace w' = trace w ++ prompts ++ rest
    ∧ Forall (fun e => is_prompt e = true) prompts
    ∧ stdin w' = stdin (load_survey_data surveydata w).2
    ∧ match (load_survey_data surveydata w).1 with
      | Raise e => r = Raise e ∧ rest = []
      | Ok _ =>
          ∃ evs, rest = EvProject mastertoken :: evs
            ∧ Forall (fun e => is_log_or_post e = true) evs
            ∧ ∀ e, fetch_project_data mastertoken = Raise e →
                r = Raise e ∧ evs = []
      end.
Proof.
  unfold surv_upload.
  destruct (load_survey_data surveydata w) as [rl w1] eqn:Hload.
  destruct (load_survey_data_prompts _ _ _ _ Hload) as (prompts & Htr & Hprompts).
  destruct rl as [ld|e]; simpl.
  - rewrite (bind_ok _ _ _ _ _ Hload). unfold OHProject, emit, lift, bind.
    destruct (fetch_project_data mastertoken) as [pd|e]; simpl.
    + intros Hloop.
      apply for_each_loop_run in Hloop as (Hin & evs & Htr' & Hrun). simpl in *.
      exists prompts, (EvProject mastertoken :: evs). split_and!; [|done|done|].
      * rewrite Htr', Htr, <- !app_assoc. done.
      * exists evs. split_and!; [done | by eapply loop_run_kinds | done].
    + intros [= <- <-]. simpl.
      exists prompts, [EvProject mastertoken]. split_and!; [|done|done|].
      * rewrite Htr, <- !app_assoc. done.
      * exists []. split_and!; [done | constructor |]. by intros ? [= ->].
  - rewrite (bind_raise _ _ _ _ _ Hload). intros [= <- <-].
    exists prompts, []. rewrite app_nil_r. done.
Qed.

End Program.

(** * Examples *)

(** ** The library functions on small inputs *)

Example re_match_eight_digits : re_match_RE_ID "12345678" = true.
Proof. reflexivity. Qed.

Example re_match_seven_digits : re_match_RE_ID "1234567" = false.
Proof. reflexivity. Qed.

Example re_match_nine_digits : re_match_RE_ID "123456789" = false.
Proof. reflexivity. Qed.

Example re_match_letter : re_match_RE_ID "1234567a" = false.
Proof. reflexivity. Qed.

Example re_match_final_newline : re_match_RE_ID ("12345678" +:+ newline) = true.
Proof. reflexivity. Qed.

Example affirmative_mixed_case :
  affirmative "y" = true ∧ affirmative "Yes" = true ∧ affirmative "YES" = true
  ∧ affirmative "n" = false ∧ affirmative "" = false ∧ affirmative "yes " = false.
Proof. repeat split. Qed.

Example split_space_default_tags : split_space DEFAULT_TAGS = ["json"; "survey"].
Proof. reflexivity. Qed.

Example split_space_double_space : split_space "a b  c" = ["a"; "b"; ""; "c"].
Proof. reflexivity. Qed.

Example split_space_empty : split_space "" = [""].
Proof. reflexivity. Qed.

Example reader_short_and_long_rows :
  reader_rows [["a"; "b"]; ["1"]; []; ["1"; "2"; "3"]]
  = [[(Some "a", Str "1"); (Some "b", PyNone)];
     [(Some "a", Str "1"); (Some "b", Str "2"); (None, StrList ["3"])]].
Proof. reflexivity. Qed.

Example plain_csv_reader_two_rows :
  plain_csv_reader survey_two_rows
  = [["id"; "response"]; ["12345678"; "yes"]; ["87654321"; "no"]].
Proof. reflexivity. Qed.

(** The specification's first scenario: the file [survey_two_rows] with the
    column [id] confirmed. *)
Example load_two_rows :
  load_survey_data (one_file survey_two_rows) plain_csv_reader sniff_header
    show_dict "survey.csv" (operator_types ["y"])
  = (Ok [("12345678", row_of "12345678" "yes");
         ("87654321", row_of "87654321" "no")],
     confirmed_column "1" "id").
Proof. reflexivity. Qed.

(** The whole run on that file. *)
Example upload_two_rows :
  surv_upload (one_file survey_two_rows) plain_csv_reader sniff_header show_dict
    show_dict fetch_sample_listing remote_failing "TOKEN" "survey.csv"
    UPLOAD_FILENAME DEFAULT_DESCRIPTION DEFAULT_TAGS (operator_types ["y"])
  = (Ok tt, sample_run_end).
Proof. vm_compute. reflexivity. Qed.

(** ** The theorems at concrete inputs *)

(** Prove a decidable proposition by evaluating its decision. *)
Ltac by_evaluation := apply (bool_decide_unpack _); vm_compute; exact I.

(** C9 at the file [survey_header_only]. *)
Lemma header_only_raises_StopIteration_witness :
  (one_file survey_header_only "survey.csv" = Some survey_header_only
   ∧ sniff_header (read_1024 survey_header_only) = Ok true
   ∧ reader_rows (plain_csv_reader survey_header_only) = [])
  ∧ get_projmemid_fieldname (one_file survey_header_only) plain_csv_reader
      "survey.csv" (operator_types ["y"])
    = (Raise StopIteration, operator_types ["y"])
  ∧ load_survey_data (one_file survey_header_only) plain_csv_reader sniff_header
      show_dict "survey.csv" (operator_types ["y"])
    = (Raise StopIteration, operator_types ["y"])
  ∧ StopIteration ≠ unable.
Proof.
  assert (H1 : one_file survey_header_only "survey.csv" = Some survey_header_only)
    by reflexivity.
  assert (H2 : sniff_header (read_1024 survey_header_only) = Ok true)
    by reflexivity.
  assert (H3 : reader_rows (plain_csv_reader survey_header_only) = [])
    by reflexivity.
  split; [by split_and!|].
  exact (header_only_raises_StopIteration (one_file survey_header_only)
           plain_csv_reader sniff_header show_dict "survey.csv"
           survey_header_only (operator_types ["y"]) H1 H2 H3).
Defined.



(** A column whose name is empty cannot be returned: confirmed by the
    operator, it fails the test [if id_fieldname:] all the same. *)
Example empty_column_name_confirmed :
  get_projmemid_fieldname (one_file (unlines ["id,"; "12345678,87654321"]))
    plain_csv_reader "survey.csv" (operator_types ["n"; "y"])
  = (Raise unable,
     {| stdin := [];
        trace := [EvInput "Is project member ID column 1? (id) (Y/N): " (Some "n");
                  EvInput "Is project member ID column 2? () (Y/N): " (Some "y")] |}).
Proof. reflexivity. Qed.

(** C1, as amended, at the file [survey_seven_digits], whose second row
    has an identifier of seven digits. *)
Lemma load_survey_data_malformed_row_witness :
  (one_file survey_seven_digits "survey.csv" = Some survey_seven_digits
   ∧ sniff_header (read_1024 survey_seven_digits) = Ok true
   ∧ get_projmemid_fieldname (one_file survey_seven_digits) plain_csv_reader
       "survey.csv" (operator_types ["y"])
     = (Ok "id", confirmed_column "1" "id")
   ∧ row_of "1234567" "no" ∈ reader_rows (plain_csv_reader survey_seven_digits)
   ∧ cell_matches "id" (row_of "1234567" "no") = false)
  ∧ ∃ pre first post,
      reader_rows (plain_csv_reader survey_seven_digits) = pre ++ first :: post
      ∧ Forall (fun r => cell_matches "id" r = true) pre
      ∧ cell_matches "id" first = false
      ∧ load_survey_data (one_file survey_seven_digits) plain_csv_reader
          sniff_header show_dict "survey.csv" (operator_types ["y"])
        = (Raise (match dict_get (Some "id") first with
                  | Some (Str _) => Exception (malformed_message show_dict first)
                  | _ => TypeError
                  end), confirmed_column "1" "id").
Proof.
  assert (H1 : one_file survey_seven_digits "survey.csv" = Some survey_seven_digits)
    by reflexivity.
  assert (H2 : sniff_header (read_1024 survey_seven_digits) = Ok true)
    by reflexivity.
  assert (H3 : get_projmemid_fieldname (one_file survey_seven_digits)
                 plain_csv_reader "survey.csv" (operator_types ["y"])
               = (Ok "id", confirmed_column "1" "id")) by reflexivity.
  assert (H4 : row_of "1234567" "no"
               ∈ reader_rows (plain_csv_reader survey_seven_digits))
    by by_evaluation.
  assert (H5 : cell_matches "id" (row_of "1234567" "no") = false) by reflexivity.
  split; [by split_and!|].
  exact (load_survey_data_malformed_row (one_file survey_seven_digits)
           plain_csv_reader sniff_header show_dict "survey.csv"
           survey_seven_digits "id" (operator_types ["y"])
           (confirmed_column "1" "id") (row_of "1234567" "no") H1 H2 H3 H4 H5).
Defined.

(** The run of the witness above, evaluated: the error names the row. *)
Example load_seven_digits :
  load_survey_data (one_file survey_seven_digits) plain_csv_reader sniff_header
    show_dict "survey.csv" (operator_types ["y"])
  = (Raise (Exception
       "Row {id: '1234567', response: 'no'} appears to have malformed project member ID!"),
     confirmed_column "1" "id").
Proof. reflexivity. Qed.

(** C1 as stated fails at the file [survey_short_row]: its last row has no
    value in the confirmed column [id], which therefore does not match
    [RE_ID]; the load raises [TypeError], an exception that names no row. *)
Lemma load_survey_data_short_row_counterexample :
  get_projmemid_fieldname (one_file survey_short_row) plain_csv_reader
    "survey.csv" (operator_types ["y"])
  = (Ok "id", confirmed_column "2" "id")
  ∧ [(Some "response", Str "no"); (Some "id", PyNone)]
    ∈ reader_rows (plain_csv_reader survey_short_row)
  ∧ cell_matches "id" [(Some "response", Str "no"); (Some "id", PyNone)] = false
  ∧ load_survey_data (one_file survey_short_row) plain_csv_reader sniff_header
      show_dict "survey.csv" (operator_types ["y"])
    = (Raise TypeError, confirmed_column "2" "id")
  ∧ ∀ r, TypeError ≠ Exception (malformed_message show_dict r).
Proof.
  split_and!; [reflexivity | by_evaluation | reflexivity | reflexivity | discriminate].
Qed.

(** C2 at the file [survey_duplicate], where 12345678 occurs twice: the
    dataset keeps the later row. *)
Lemma load_survey_data_last_row_wins_witness :
  (one_file survey_duplicate "survey.csv" = Some survey_duplicate
   ∧ sniff_header (read_1024 survey_duplicate) = Ok true
   ∧ get_projmemid_fieldname (one_file survey_duplicate) plain_csv_reader
       "survey.csv" (operator_types ["y"])
     = (Ok "id", confirmed_column "1" "id")
   ∧ Forall (fun r => cell_matches "id" r = true)
       (reader_rows (plain_csv_reader survey_duplicate)))
  ∧ ∃ loaded_data,
      load_survey_data (one_file survey_duplicate) plain_csv_reader sniff_header
        show_dict "survey.csv" (operator_types ["y"])
      = (Ok loaded_data, confirmed_column "1" "id")
      ∧ NoDup (dict_keys loaded_data)
      ∧ dict_get "12345678" loaded_data = Some (row_of "12345678" "maybe")
      ∧ dict_get "87654321" loaded_data = Some (row_of "87654321" "no")
      ∧ dict_get "11111111" loaded_data = None.
Proof.
  assert (H1 : one_file survey_duplicate "survey.csv" = Some survey_duplicate)
    by reflexivity.
  assert (H2 : sniff_header (read_1024 survey_duplicate) = Ok true) by reflexivity.
  assert (H3 : get_projmemid_fieldname (one_file survey_duplicate)
                 plain_csv_reader "survey.csv" (operator_types ["y"])
               = (Ok "id", confirmed_column "1" "id")) by reflexivity.
  assert (H4 : Forall (fun r => cell_matches "id" r = true)
                 (reader_rows (plain_csv_reader survey_duplicate)))
    by by_evaluation.
  split; [by split_and!|].
  destruct (load_survey_data_last_row_wins (one_file survey_duplicate)
              plain_csv_reader sniff_header show_dict "survey.csv"
              survey_duplicate "id" (operator_types ["y"])
              (confirmed_column "1" "id") H1 H2 H3 H4)
    as (loaded_data & Hrun & Hnd & _ & Hlook).
  exists loaded_data. split_and!; [exact Hrun | exact Hnd | | |];
    rewrite Hlook; reflexivity.
Defined.

(** C10 at the file [survey_duplicate]. *)
Lemma load_survey_data_keys_consistent_witness :
  load_survey_data (one_file survey_duplicate) plain_csv_reader sniff_header
    show_dict "survey.csv" (operator_types ["y"])
  = (Ok [("12345678", row_of "12345678" "maybe");
         ("87654321", row_of "87654321" "no")],
     confirmed_column "1" "id")
  ∧ ∃ id_fieldname,
      get_projmemid_fieldname (one_file survey_duplicate) plain_csv_reader
        "survey.csv" (operator_types ["y"])
      = (Ok id_fieldname, confirmed_column "1" "id")
      ∧ ∀ k r, (k, r) ∈ [("12345678", row_of "12345678" "maybe");
                          ("87654321", row_of "87654321" "no")] →
          re_match_RE_ID k = true ∧ dict_get (Some id_fieldname) r = Some (Str k).
Proof.
  assert (H1 : load_survey_data (one_file survey_duplicate) plain_csv_reader
                 sniff_header show_dict "survey.csv" (operator_types ["y"])
               = (Ok [("12345678", row_of "12345678" "maybe");
                      ("87654321", row_of "87654321" "no")],
                  confirmed_column "1" "id")) by reflexivity.
  split; [exact H1|].
  exact (load_survey_data_keys_consistent (one_file survey_duplicate)
           plain_csv_reader sniff_header show_dict "survey.csv"
           (operator_types ["y"]) _ _ H1).
Defined.

(** C5 at a file in which the sniffer finds no header: the run ends with
    the loader's exception, its trace still empty. *)
Lemma load_precedes_network_witness :
  load_survey_data (one_file survey_two_rows) plain_csv_reader sniff_no_header
    show_dict "survey.csv" (operator_types ["y"])
  = (Raise (Exception "CSV data doesn't appear to have a header!"),
     operator_types ["y"])
  ∧ surv_upload (one_file survey_two_rows) plain_csv_reader sniff_no_header
      show_dict show_dict fetch_sample_listing remote_failing "TOKEN"
      "survey.csv" UPLOAD_FILENAME DEFAULT_DESCRIPTION DEFAULT_TAGS
      (operator_types ["y"])
    = (Raise (Exception "CSV data doesn't appear to have a header!"),
       operator_types ["y"]).
Proof.
  assert (H1 : load_survey_data (one_file survey_two_rows) plain_csv_reader
                 sniff_no_header show_dict "survey.csv" (operator_types ["y"])
               = (Raise (Exception "CSV data doesn't appear to have a header!"),
                  operator_types ["y"])) by reflexivity.
  split; [exact H1|].
  exact (proj1 (proj2 (load_precedes_network (one_file survey_two_rows)
           plain_csv_reader sniff_no_header show_dict show_dict
           fetch_sample_listing remote_failing "TOKEN" "survey.csv"
           UPLOAD_FILENAME DEFAULT_DESCRIPTION DEFAULT_TAGS
           (operator_types ["y"]) _ _ H1)) _ eq_refl).
Defined.

(** The hypotheses shared by the statements about whole runs, at the run
    of [upload_two_rows]. *)
Lemma sample_load :
  load_survey_data (one_file survey_two_rows) plain_csv_reader sniff_header
    show_dict "survey.csv" (operator_types ["y"])
  = (Ok [("12345678", row_of "12345678" "yes");
         ("87654321", row_of "87654321" "no")],
     confirmed_column "1" "id").
Proof. reflexivity. Defined.

Lemma sample_run :
  surv_upload (one_file survey_two_rows) plain_csv_reader sniff_header show_dict
    show_dict fetch_sample_listing remote_failing "TOKEN" "survey.csv"
    UPLOAD_FILENAME DEFAULT_DESCRIPTION DEFAULT_TAGS (operator_types ["y"])
  = (Ok tt, sample_run_end).
Proof. vm_compute. reflexivity. Defined.

Lemma sample_events evs :
  trace sample_run_end
  = trace (confirmed_column "1" "id") ++ EvProject "TOKEN" :: evs →
  evs = sample_loop_events.
Proof. intros Htr. simpl in Htr. by injection Htr as <-. Defined.

(** C6 at the scenario of the specification: the listing has no member
    87654321. *)
Lemma absent_member_skipped_witness :
  ("87654321" ∈ dict_keys [("12345678", row_of "12345678" "yes");
                           ("87654321", row_of "87654321" "no")]
   ∧ sample_listing !! "87654321" = None)
  ∧ (∀ req reply, EvPost req reply ∈ sample_loop_events →
       ¬ request_for "87654321" req)
  ∧ EvLog INFO "Skipping '87654321', invalid member ID." ∈ sample_loop_events.
Proof.
  assert (H1 : "87654321" ∈ dict_keys [("12345678", row_of "12345678" "yes");
                                       ("87654321", row_of "87654321" "no")])
    by by_evaluation.
  assert (H2 : sample_listing !! "87654321" = None) by (vm_compute; reflexivity).
  split; [by split_and!|].
  destruct (absent_member_skipped (one_file survey_two_rows) plain_csv_reader
              sniff_header show_dict show_dict fetch_sample_listing
              remote_failing "TOKEN" UPLOAD_FILENAME DEFAULT_DESCRIPTION
              DEFAULT_TAGS _ sample_listing "survey.csv" "87654321"
              (operator_types ["y"]) _ _ _ sample_load eq_refl sample_run H1 H2)
    as (_ & _ & evs & Htr & Hnone & Hlog).
  apply sample_events in Htr as ->. split; [exact Hnone | exact (Hlog eq_refl)].
Defined.

(** C3 at the member 12345678 of [sample_listing], who owns a file named
    [survey-data.json]: the delete request comes before the upload. *)
Lemma delete_precedes_upload_witness :
  (sample_listing !! "12345678"
   = Some {| data := [ {| basename := "survey-data.json"; source := "direct-sharing-1" |};
                       {| basename := "genome.txt"; source := "twenty_three_and_me" |} ];
             sources_shared := ["twenty_three_and_me"] |}
   ∧ dict_keys (curr_project_data
        {| data := [ {| basename := "survey-data.json"; source := "direct-sharing-1" |};
                     {| basename := "genome.txt"; source := "twenty_three_and_me" |} ];
           sources_shared := ["twenty_three_and_me"] |})
     = ["survey-data.json"])
  ∧ ∃ i j r0 reply reply', i < j
      ∧ sample_loop_events !! i = Some (EvPost sample_delete reply)
      ∧ sample_loop_events !! j
        = Some (EvPost (upload_of show_dict "TOKEN" UPLOAD_FILENAME
                          DEFAULT_DESCRIPTION DEFAULT_TAGS "12345678" r0) reply').
Proof.
  assert (H1 : sample_listing !! "12345678"
     = Some {| data := [ {| basename := "survey-data.json"; source := "direct-sharing-1" |};
                         {| basename := "genome.txt"; source := "twenty_three_and_me" |} ];
               sources_shared := ["twenty_three_and_me"] |})
    by (vm_compute; reflexivity).
  assert (H2 : dict_keys (curr_project_data
        {| data := [ {| basename := "survey-data.json"; source := "direct-sharing-1" |};
                     {| basename := "genome.txt"; source := "twenty_three_and_me" |} ];
           sources_shared := ["twenty_three_and_me"] |})
     = ["survey-data.json"]) by reflexivity.
  split; [by split_and!|].
  destruct (delete_precedes_upload (one_file survey_two_rows) plain_csv_reader
              sniff_header show_dict show_dict fetch_sample_listing
              remote_failing "TOKEN" UPLOAD_FILENAME DEFAULT_DESCRIPTION
              DEFAULT_TAGS _ sample_listing "survey.csv" "12345678" _
              (operator_types ["y"]) _ _ _ sample_load eq_refl sample_run H1)
    as (_ & _ & evs & Htr & _ & _ & Hboth).
  apply sample_events in Htr as ->.
  apply Hboth; [rewrite H2; left | by_evaluation | reflexivity].
Defined.

Lemma remote_failing_answers t req :
  ∃ status_code, remote_failing t req = Ok status_code.
Proof. unfold remote_failing. destruct (req_files req); eauto. Defined.

(** C7 at the run of [upload_two_rows], in which the service answers 500
    to the upload: the warning follows the request, and the run goes on to
    the next identifier and ends normally. *)
Lemma upload_status_reported_witness :
  sample_loop_events !! 3 = Some (EvPost sample_upload (Ok 500%Z))
  ∧ (∃ projmemid, request_for projmemid sample_upload
       ∧ sample_loop_events !! 4
         = Some (EvLog WARNING ("Upload error of survey-data.json for "
                                  +:+ projmemid +:+ "!")))
  ∧ ∃ r0 status_code,
      EvPost (upload_of show_dict "TOKEN" UPLOAD_FILENAME DEFAULT_DESCRIPTION
                DEFAULT_TAGS "12345678" r0) (Ok status_code)
      ∈ sample_loop_events.
Proof.
  destruct (upload_status_reported (one_file survey_two_rows) plain_csv_reader
              sniff_header show_dict show_dict fetch_sample_listing
              remote_failing "TOKEN" UPLOAD_FILENAME DEFAULT_DESCRIPTION
              DEFAULT_TAGS _ sample_listing "survey.csv"
              (operator_types ["y"]) _ _ _ sample_load eq_refl sample_run)
    as (evs & Htr & Hreport & _ & Hends).
  apply sample_events in Htr as ->.
  split; [reflexivity|]. split.
  - exact (Hreport 3 sample_upload 500%Z eq_refl eq_refl).
  - apply (proj2 (Hends remote_failing_answers)); [by_evaluation|].
    exists {| data := [ {| basename := "survey-data.json"; source := "direct-sharing-1" |};
                       {| basename := "genome.txt"; source := "twenty_three_and_me" |} ];
              sources_shared := ["twenty_three_and_me"] |}.
    vm_compute. reflexivity.
Defined.


(** ** The further theorems at concrete inputs *)

(** Soundness of the returned column, at [survey_two_candidates]. *)
Lemma get_projmemid_fieldname_sound_witness :
  get_projmemid_fieldname (one_file survey_two_candidates) plain_csv_reader
    "survey.csv" (operator_types ["n"; "Yes"; "never read"])
  = (Ok "member",
     {| stdin := ["never read"];
        trace := [EvInput "Is project member ID column 1? (id) (Y/N): " (Some "n");
                  EvInput "Is project member ID column 3? (member) (Y/N): "
                    (Some "Yes")] |})
  ∧ ∃ text fieldnames firstrow asked a,
      one_file survey_two_candidates "survey.csv" = Some text
      ∧ reader_fieldnames (plain_csv_reader text) = Some fieldnames
      ∧ head (reader_rows (plain_csv_reader text)) = Some firstrow
      ∧ "member" ∈ fieldnames ∧ "member" ≠ "" ∧ cell_matches "member" firstrow = true
      ∧ affirmative a = true
      ∧ Forall (fun gb => gb.1 ∈ fieldnames ∧ cell_matches gb.1 firstrow = true
                          ∧ affirmative gb.2 = false) asked
      ∧ ["n"; "Yes"; "never read"] = asked.*2 ++ a :: ["never read"]
      ∧ [EvInput "Is project member ID column 1? (id) (Y/N): " (Some "n");
         EvInput "Is project member ID column 3? (member) (Y/N): " (Some "Yes")]
        = [] ++ ((fun gb => EvInput (prompt_for (column_number fieldnames gb.1) gb.1)
                              (Some gb.2)) <$> (asked ++ [("member", a)])).
Proof.
  assert (H1 : get_projmemid_fieldname (one_file survey_two_candidates)
                 plain_csv_reader "survey.csv"
                 (operator_types ["n"; "Yes"; "never read"])
               = (Ok "member",
                  {| stdin := ["never read"];
                     trace := [EvInput "Is project member ID column 1? (id) (Y/N): "
                                 (Some "n");
                               EvInput "Is project member ID column 3? (member) (Y/N): "
                                 (Some "Yes")] |})) by reflexivity.
  split; [exact H1|].
  exact (get_projmemid_fieldname_sound (one_file survey_two_candidates)
           plain_csv_reader "survey.csv" _ _ _ H1).
Defined.

(** The empty column name, at [survey_unnamed_then_short]: the operator
    declines [id] and confirms the unnamed second column; the first data
    line stops before the third column, which is never looked at. *)
Lemma get_projmemid_fieldname_empty_name_witness :
  (one_file survey_unnamed_then_short "survey.csv" = Some survey_unnamed_then_short
   ∧ reader_fieldnames (plain_csv_reader survey_unnamed_then_short)
     = Some (["id"; ""] ++ ["x"])
   ∧ head (reader_rows (plain_csv_reader survey_unnamed_then_short))
     = Some [(Some "id", Str "12345678"); (Some "", Str "87654321");
             (Some "x", PyNone)]
   ∧ ask_candidates
       (filter (fun f => cell_matches f [(Some "id", Str "12345678");
                                          (Some "", Str "87654321");
                                          (Some "x", PyNone)] = true)
          ["id"; ""]) ["n"; "y"]
     = ([("id", Some "n"); ("", Some "y")], Confirmed ""))
  ∧ get_projmemid_fieldname (one_file survey_unnamed_then_short) plain_csv_reader
      "survey.csv" (operator_types ["n"; "y"])
    = (Raise (Exception "Unable to determine column with project member ID."),
       {| stdin := [];
          trace := [EvInput "Is project member ID column 1? (id) (Y/N): " (Some "n");
                    EvInput "Is project member ID column 2? () (Y/N): " (Some "y")] |}).
Proof.
  assert (H1 : one_file survey_unnamed_then_short "survey.csv"
               = Some survey_unnamed_then_short) by reflexivity.
  assert (H2 : reader_fieldnames (plain_csv_reader survey_unnamed_then_short)
               = Some (["id"; ""] ++ ["x"])) by reflexivity.
  assert (H3 : head (reader_rows (plain_csv_reader survey_unnamed_then_short))
               = Some [(Some "id", Str "12345678"); (Some "", Str "87654321");
                       (Some "x", PyNone)])
    by reflexivity.
  assert (H4 : ∀ f, f ∈ ["id"; ""] →
            ∃ s, dict_get (Some f) [(Some "id", Str "12345678");
                                    (Some "", Str "87654321");
                                    (Some "x", PyNone)] = Some (Str s)).
  { intros f Hf.
    repeat (apply elem_of_cons in Hf as [->|Hf]; [eexists; reflexivity|]).
    by apply elem_of_nil in Hf. }
  assert (H5 : ask_candidates
       (filter (fun f => cell_matches f [(Some "id", Str "12345678");
                                          (Some "", Str "87654321");
                                          (Some "x", PyNone)] = true)
          ["id"; ""]) ["n"; "y"]
     = ([("id", Some "n"); ("", Some "y")], Confirmed "")) by reflexivity.
  split; [by split_and!|].
  exact (get_projmemid_fieldname_empty_name (one_file survey_unnamed_then_short)
           plain_csv_reader "survey.csv" survey_unnamed_then_short ["id"; ""] ["x"] _
           (operator_types ["n"; "y"]) _ H1 H2 H3 H4 H5).
Defined.

(** The header check, with a sniffer that finds no header. *)
Lemma load_survey_data_header_first_witness :
  (one_file survey_two_rows "survey.csv" = Some survey_two_rows
   ∧ sniff_no_header (read_1024 survey_two_rows) = Ok false)
  ∧ load_survey_data (one_file survey_two_rows) plain_csv_reader sniff_no_header
      show_dict "survey.csv" (operator_types ["y"])
    = (Raise (Exception "CSV data doesn't appear to have a header!"),
       operator_types ["y"]).
Proof.
  assert (H1 : one_file survey_two_rows "survey.csv" = Some survey_two_rows)
    by reflexivity.
  assert (H2 : sniff_no_header (read_1024 survey_two_rows) ≠ Ok true)
    by discriminate.
  split; [by split|].
  exact (load_survey_data_header_first (one_file survey_two_rows)
           plain_csv_reader sniff_no_header show_dict "survey.csv"
           survey_two_rows (operator_types ["y"]) H1 H2).
Defined.

(** The order of the keys, at [survey_duplicate]: 12345678 keeps the first
    place although its entry comes from the third row. *)
Lemma load_survey_data_key_order_witness :
  (get_projmemid_fieldname (one_file survey_duplicate) plain_csv_reader
     "survey.csv" (operator_types ["y"])
   = (Ok "id", confirmed_column "1" "id")
   ∧ omap (row_id "id") (reader_rows (plain_csv_reader survey_duplicate))
     = ["12345678"; "87654321"; "12345678"])
  ∧ ∃ loaded_data,
      load_survey_data (one_file survey_duplicate) plain_csv_reader sniff_header
        show_dict "survey.csv" (operator_types ["y"])
      = (Ok loaded_data, confirmed_column "1" "id")
      ∧ dict_keys loaded_data = ["12345678"; "87654321"].
Proof.
  assert (H1 : one_file survey_duplicate "survey.csv" = Some survey_duplicate)
    by reflexivity.
  assert (H2 : sniff_header (read_1024 survey_duplicate) = Ok true) by reflexivity.
  assert (H3 : get_projmemid_fieldname (one_file survey_duplicate)
                 plain_csv_reader "survey.csv" (operator_types ["y"])
               = (Ok "id", confirmed_column "1" "id")) by reflexivity.
  assert (H4 : Forall (fun r => cell_matches "id" r = true)
                 (reader_rows (plain_csv_reader survey_duplicate)))
    by by_evaluation.
  split; [split; [exact H3 | reflexivity]|].
  destruct (load_survey_data_key_order (one_file survey_duplicate)
              plain_csv_reader sniff_header show_dict "survey.csv"
              survey_duplicate "id" (operator_types ["y"])
              (confirmed_column "1" "id") H1 H2 H3 H4)
    as (loaded_data & Hrun & Hkeys).
  exists loaded_data. split; [exact Hrun|]. rewrite Hkeys. reflexivity.
Defined.

(** The run on [survey_two_rows] when the service cannot be reached: it
    stops at the first request. *)
Lemma sample_run_down :
  surv_upload (one_file survey_two_rows) plain_csv_reader sniff_header show_dict
    show_dict fetch_sample_listing remote_down "TOKEN" "survey.csv"
    UPLOAD_FILENAME DEFAULT_DESCRIPTION DEFAULT_TAGS (operator_types ["y"])
  = (Raise (LibraryError "ConnectionError"),
     {| stdin := [];
        trace := trace (confirmed_column "1" "id")
                   ++ EvProject "TOKEN"
                   :: [EvLog INFO "Deleting current survey-data.json for 12345678";
                       EvPost sample_delete
                         (Raise (LibraryError "ConnectionError"))] |}).
Proof. vm_compute. reflexivity. Defined.

Lemma service_exception_ends_run_witness :
  ∃ req,
    last [EvLog INFO "Deleting current survey-data.json for 12345678";
          EvPost sample_delete (Raise (LibraryError "ConnectionError"))]
    = Some (EvPost req (Raise (LibraryError "ConnectionError"))).
Proof.
  destruct (service_exception_ends_run (one_file survey_two_rows) plain_csv_reader
              sniff_header show_dict show_dict fetch_sample_listing
              remote_down "TOKEN" UPLOAD_FILENAME DEFAULT_DESCRIPTION
              DEFAULT_TAGS _ sample_listing "survey.csv"
              (operator_types ["y"]) _ _ _ sample_load eq_refl sample_run_down)
    as (evs & Htr & _ & Hcause).
  simpl in Htr. injection Htr as <-.
  exact (Hcause _ eq_refl).
Defined.

(** The delete request of the run of [upload_two_rows] is announced by the
    event before it and is made for a listed member who has the file. *)
Lemma requests_announced_and_listed_witness :
  sample_loop_events !! 1 = Some (EvPost sample_delete (Ok 200%Z))
  ∧ ∃ j projmemid,
      1 = S j
      ∧ sample_loop_events !! j
        = Some (announcement "TOKEN" UPLOAD_FILENAME sample_delete projmemid)
      ∧ projmemid ∈ dict_keys [("12345678", row_of "12345678" "yes");
                               ("87654321", row_of "87654321" "no")]
      ∧ is_Some (sample_listing !! projmemid)
      ∧ ((sample_delete = delete_request "TOKEN" projmemid UPLOAD_FILENAME
          ∧ has_current sample_listing UPLOAD_FILENAME projmemid = true)
         ∨ ∃ r0, dict_get projmemid [("12345678", row_of "12345678" "yes");
                                     ("87654321", row_of "87654321" "no")] = Some r0
             ∧ sample_delete = upload_of show_dict "TOKEN" UPLOAD_FILENAME
                                 DEFAULT_DESCRIPTION DEFAULT_TAGS projmemid r0).
Proof.
  destruct (requests_announced_and_listed (one_file survey_two_rows)
              plain_csv_reader sniff_header show_dict show_dict
              fetch_sample_listing remote_failing "TOKEN" UPLOAD_FILENAME
              DEFAULT_DESCRIPTION DEFAULT_TAGS _ sample_listing "survey.csv"
              (operator_types ["y"]) _ _ _ sample_load eq_refl sample_run)
    as (evs & Htr & Hreq).
  apply sample_events in Htr as ->.
  split; [reflexivity|].
  exact (Hreq 1 sample_delete (Ok 200%Z) eq_refl).
Defined.

(** Who was served in the run of [upload_two_rows]: the one listed member,
    who also had the file. *)
Lemma normal_run_serves_listed_members_witness :
  posted_ids (up_url "TOKEN") sample_loop_events = ["12345678"]
  ∧ posted_ids (del_url "TOKEN") sample_loop_events = ["12345678"]
  ∧ filter (fun projmemid => listed sample_listing projmemid = true)
      (dict_keys [("12345678", row_of "12345678" "yes");
                  ("87654321", row_of "87654321" "no")])
    = ["12345678"].
Proof.
  destruct (normal_run_serves_listed_members (one_file survey_two_rows)
              plain_csv_reader sniff_header show_dict show_dict
              fetch_sample_listing remote_failing "TOKEN" UPLOAD_FILENAME
              DEFAULT_DESCRIPTION DEFAULT_TAGS _ sample_listing "survey.csv"
              (operator_types ["y"]) _ _ sample_load eq_refl sample_run)
    as (evs & Htr & Hup & Hdel).
  apply sample_events in Htr as ->.
  split_and!.
  - rewrite Hup. vm_compute. reflexivity.
  - rewrite Hdel. vm_compute. reflexivity.
  - vm_compute. reflexivity.
Defined.

(** The shape of the trace of the run of [upload_two_rows]. *)
Lemma surv_upload_trace_shape_witness :
  ∃ prompts rest,
    trace sample_run_end = trace (operator_types ["y"]) ++ prompts ++ rest
    ∧ Forall (fun e => is_prompt e = true) prompts
    ∧ stdin sample_run_end
      = stdin (load_survey_data (one_file survey_two_rows) plain_csv_reader
                 sniff_header show_dict "survey.csv" (operator_types ["y"])).2
    ∧ match (load_survey_data (one_file survey_two_rows) plain_csv_reader
               sniff_header show_dict "survey.csv" (operator_types ["y"])).1 with
      | Raise e => Ok tt = Raise e ∧ rest = []
      | Ok _ =>
          ∃ evs, rest = EvProject "TOKEN" :: evs
            ∧ Forall (fun e => is_log_or_post e = true) evs
            ∧ ∀ e, fetch_sample_listing "TOKEN" = Raise e →
                Ok tt = Raise e ∧ evs = []
      end.
Proof.
  exact (surv_upload_trace_shape (one_file survey_two_rows) plain_csv_reader
           sniff_header show_dict show_dict fetch_sample_listing remote_failing
           "TOKEN" "survey.csv" UPLOAD_FILENAME DEFAULT_DESCRIPTION DEFAULT_TAGS
           (operator_types ["y"]) _ _ sample_run).
Defined.

(** The order of first occurrences on a small list. *)
Example first_occurrences_small :
  first_occurrences [] ["b"; "a"; "b"; "c"; "a"] = ["b"; "a"; "c"].
Proof. reflexivity. Qed.
